(** * M306: MPC settings and autotune (Marlin, CAN host/toolhead fork)

    A shallow embedding of [Marlin/src/gcode/temp/M306.cpp]: the G-code
    handler [GcodeSuite::M306] and the settings reporter
    [GcodeSuite::M306_report].  The preprocessor switches of the file
    become the fields of a [config] record, the firmware globals the handler
    touches become a state record, and everything the handler does to the
    outside world (serial console, LCD, autotune procedure, CAN bus) is
    appended to a chronological trace. *)

From Stdlib Require Import ZArith String Ascii List Lia SpecFloat DecimalString.
From stdpp Require Import base list.

Local Open Scope Z_scope.

(** ** Numbers *)

(** [uint8_t]: the value kept by a narrowing conversion. *)
Definition uint8 (x : Z) : Z := x mod 2 ^ 8.

(** C++ [float]: IEEE-754 binary32 (24 bits of precision, emax 128). *)
Definition float : Type := spec_float.

Definition float_of_Z (z : Z) : float := binary_normalize 24 128 z 0 false.
Definition float_div : float -> float -> float := SFdiv 24 128.

(** ** Build configuration

    One field per preprocessor symbol that M306.cpp tests or expands. *)
Record config := {
  HAS_MULTI_EXTRUDER : bool;
  EXTRUDERS : Z;
  HOTENDS : nat;
  MPC_AUTOTUNE : bool;
  MPC_INCLUDE_FAN : bool;
  CAN_HOST : bool;
  CAN_TOOLHEAD : bool;
  MARLIN_SMALL_BUILD : bool;
  MPC_HEATER_POWER : float
}.

(** ** The Model Store *)

(** Modelled from the spec: [struct MPC_t] with its methods
    [applyFanAdjustment] and [fanCoefficient] is declared in
    module/temperature.h, which is not among the sources.  M306.cpp names
    the five plain fields.  Of the fan term the spec (section 3) says that it
    is "always expressed as baseline + delta", that "setting the fan value is
    really setting the delta from the no-fan baseline", and that the derived
    fan coefficient is "always recoverable, never independently settable":
    the record keeps the delta ([fan_delta]), written only by
    [applyFanAdjustment] and read back by [fanCoefficient]; the full-fan
    value [ambient_xfer_coeff_fan_full], being baseline + delta, is not
    stored. *)
Record MPC_t := {
  heater_power : float;
  block_heat_capacity : float;
  sensor_responsiveness : float;
  ambient_xfer_coeff_fan0 : float;
  fan_delta : float;
  filament_heat_capacity_permm : float
}.

Definition set_heater_power (v : float) (m : MPC_t) : MPC_t :=
  {| heater_power := v;
     block_heat_capacity := block_heat_capacity m;
     sensor_responsiveness := sensor_responsiveness m;
     ambient_xfer_coeff_fan0 := ambient_xfer_coeff_fan0 m;
     fan_delta := fan_delta m;
     filament_heat_capacity_permm := filament_heat_capacity_permm m |}.

Definition set_block_heat_capacity (v : float) (m : MPC_t) : MPC_t :=
  {| heater_power := heater_power m;
     block_heat_capacity := v;
     sensor_responsiveness := sensor_responsiveness m;
     ambient_xfer_coeff_fan0 := ambient_xfer_coeff_fan0 m;
     fan_delta := fan_delta m;
     filament_heat_capacity_permm := filament_heat_capacity_permm m |}.

Definition set_sensor_responsiveness (v : float) (m : MPC_t) : MPC_t :=
  {| heater_power := heater_power m;
     block_heat_capacity := block_heat_capacity m;
     sensor_responsiveness := v;
     ambient_xfer_coeff_fan0 := ambient_xfer_coeff_fan0 m;
     fan_delta := fan_delta m;
     filament_heat_capacity_permm := filament_heat_capacity_permm m |}.

Definition set_ambient_xfer_coeff_fan0 (v : float) (m : MPC_t) : MPC_t :=
  {| heater_power := heater_power m;
     block_heat_capacity := block_heat_capacity m;
     sensor_responsiveness := sensor_responsiveness m;
     ambient_xfer_coeff_fan0 := v;
     fan_delta := fan_delta m;
     filament_heat_capacity_permm := filament_heat_capacity_permm m |}.

Definition set_filament_heat_capacity_permm (v : float) (m : MPC_t) : MPC_t :=
  {| heater_power := heater_power m;
     block_heat_capacity := block_heat_capacity m;
     sensor_responsiveness := sensor_responsiveness m;
     ambient_xfer_coeff_fan0 := ambient_xfer_coeff_fan0 m;
     fan_delta := fan_delta m;
     filament_heat_capacity_permm := v |}.

(** Modelled from the spec: [MPC_t::applyFanAdjustment] (temperature.h, not
    among the sources).  "The fan field, if present, is applied through the
    baseline-relative rule rather than direct assignment": the value given
    becomes the delta from the no-fan baseline and the baseline is left
    alone. *)
Definition applyFanAdjustment (cf : float) (m : MPC_t) : MPC_t :=
  {| heater_power := heater_power m;
     block_heat_capacity := block_heat_capacity m;
     sensor_responsiveness := sensor_responsiveness m;
     ambient_xfer_coeff_fan0 := ambient_xfer_coeff_fan0 m;
     fan_delta := cf;
     filament_heat_capacity_permm := filament_heat_capacity_permm m |}.

(** Modelled from the spec: [MPC_t::fanCoefficient] (temperature.h, not
    among the sources): the derived fan coefficient, the delta recovered from
    the record. *)
Definition fanCoefficient (m : MPC_t) : float := fan_delta m.

(** [Temperature::MPCTuningType] *)
Inductive MPCTuningType := AUTO | FORCE_DIFFERENTIAL | FORCE_ASYMPTOTIC.

(** ** Effects *)

(** One argument of a [SERIAL_ECHO...PGM] call or of an [MString]
    constructor: a string literal, an integer, or a float wrapped with its
    number of decimal places. *)
Inductive echo_arg :=
| PGM (s : string)
| int_arg (n : Z)
| p_float_t (v : float) (decimals : nat).

Inductive lcd_message := MSG_MPC_AUTOTUNE.

(** What the handler does to its collaborators, one constructor per call. *)
Inductive event :=
| Echo (args : list echo_arg)
| EchoLn (args : list echo_arg)
| Heading (forReplay : bool) (title : string)
| EchoStart (forReplay : bool)
| LcdMessage (msg : lcd_message)
| Autotune (e : Z) (tuning_type : MPCTuningType)
| UiResetStatus
| CanSend (buffer : string).

(** The arguments of a console call. *)
Definition echo_args (ev : event) : list echo_arg :=
  match ev with
  | Echo args | EchoLn args => args
  | _ => []
  end.


(** A numeric word of the command line, as the two readers used here see
    it. *)
Record code_value := { as_long : Z; as_float : float }.

(** The firmware state M306 reads and writes. *)
Record Marlin := {
  temp_hotend : list MPC_t;
  active_extruder : Z;
  value_ptr : option code_value;
  trace : list event
}.

Definition with_temp_hotend (h : list MPC_t) (st : Marlin) : Marlin :=
  {| temp_hotend := h; active_extruder := active_extruder st;
     value_ptr := value_ptr st; trace := trace st |}.

Definition with_value_ptr (v : option code_value) (st : Marlin) : Marlin :=
  {| temp_hotend := temp_hotend st; active_extruder := active_extruder st;
     value_ptr := v; trace := trace st |}.

Definition with_trace (t : list event) (st : Marlin) : Marlin :=
  {| temp_hotend := temp_hotend st; active_extruder := active_extruder st;
     value_ptr := value_ptr st; trace := t |}.

(** ** A state monad with undefined behaviour

    [None] stands for C++ undefined behaviour (an array accessed outside its
    bounds). *)
Definition M (A : Type) : Type := Marlin -> option (A * Marlin).

Definition ret {A} (a : A) : M A := fun st => Some (a, st).

Definition bind {A B} (m : M A) (k : A -> M B) : M B :=
  fun st => match m st with
            | Some (a, st') => k a st'
            | None => None
            end.

Declare Scope cmd_scope.
Delimit Scope cmd_scope with cmd.
Notation "x <- c ;; k" := (bind c (fun x => k))
  (at level 100, c at next level, right associativity) : cmd_scope.
Notation "c ;; k" := (bind c (fun _ => k))
  (at level 100, right associativity) : cmd_scope.

Local Open Scope cmd_scope.

Definition gets {A} (f : Marlin -> A) : M A := fun st => Some (f st, st).
Definition modify (f : Marlin -> Marlin) : M unit := fun st => Some (tt, f st).

(** [if (c) stmt;] *)
Definition when (c : bool) (stmt : M unit) : M unit :=
  if c then stmt else ret tt.

Definition emit (ev : event) : M unit :=
  modify (fun st => with_trace (trace st ++ [ev]) st).

(** ** The collaborators

    Console, LCD and bus calls are recorded in the trace with their
    arguments; what they print or send is decided outside this file. *)
Definition SERIAL_ECHOPGM (args : list echo_arg) : M unit := emit (Echo args).
Definition SERIAL_ECHOLNPGM (args : list echo_arg) : M unit := emit (EchoLn args).
Definition report_heading (forReplay : bool) (title : string) : M unit :=
  emit (Heading forReplay title).
Definition report_echo_start (forReplay : bool) : M unit :=
  emit (EchoStart forReplay).
Definition LCD_MESSAGE (msg : lcd_message) : M unit := emit (LcdMessage msg).
Definition ui_reset_status : M unit := emit UiResetStatus.
Definition CAN_toolhead_send_string (buffer : string) : M unit :=
  emit (CanSend buffer).

(** [thermalManager.temp_hotend[e].mpc]: binding the reference, reading
    through it and assigning through it.  Outside the array each of them is
    undefined behaviour. *)
Definition mpc_ref (e : nat) : M nat :=
  fun st => match temp_hotend st !! e with
            | Some _ => Some (e, st)
            | None => None
            end.

Definition mpc_read (r : nat) : M MPC_t :=
  fun st => match temp_hotend st !! r with
            | Some m => Some (m, st)
            | None => None
            end.

Definition mpc_assign (r : nat) (f : MPC_t -> MPC_t) : M unit :=
  fun st => match temp_hotend st !! r with
            | Some m => Some (tt, with_temp_hotend (<[r := f m]> (temp_hotend st)) st)
            | None => None
            end.

(** ** The command parser

    Modelled from the spec: the G-code parser (gcode/parser.h) is not among
    the sources.  Section 6: it "supplies element index, a set of recognized
    single-letter field selectors with numeric values, a boolean autotune
    requested flag, and an optional strategy-selector byte"; "values are
    already lexically valid numbers; field presence is queried by letter".
    A command line maps each letter to: absent, present without a value, or
    present with a value.  [seen] moves the value cursor, the [value_]
    readers read at the cursor. *)
Definition command : Type := ascii -> option (option code_value).

Definition seen_test (parser : command) (c : ascii) : bool :=
  match parser c with Some _ => true | None => false end.

(** [parser.seen("...")]: is any of the letters present? *)
Definition seen_any (parser : command) (letters : string) : bool :=
  existsb (seen_test parser) (list_ascii_of_string letters).

Definition seen (parser : command) (c : ascii) : M bool :=
  match parser c with
  | Some v => modify (with_value_ptr v) ;; ret true
  | None => ret false
  end.

Definition has_value : M bool :=
  gets (fun st => match value_ptr st with Some _ => true | None => false end).

Definition seenval (parser : command) (c : ascii) : M bool :=
  s <- seen parser c ;;
  if s then has_value else ret false.

Definition value_float : M float :=
  gets (fun st => match value_ptr st with
                  | Some v => as_float v
                  | None => S754_zero false
                  end).

Definition value_long : M Z :=
  gets (fun st => match value_ptr st with Some v => as_long v | None => 0 end).

Definition intval (parser : command) (c : ascii) (dval : Z) : M Z :=
  s <- seenval parser c ;;
  if s then value_long else ret dval.

Definition byteval (parser : command) (c : ascii) (dval : Z) : M Z :=
  s <- seenval parser c ;;
  if s then value_long else ret dval.

(** [TERN0(OPTION, expr)]: [expr] when the option is enabled, else 0. *)
Definition TERN0 (option : bool) (expr : M Z) : M Z :=
  if option then expr else ret 0.

(** [HOTEND_LOOP()]: for (e = 0; e < HOTENDS; e++). *)
Fixpoint for_each (es : list nat) (body : nat -> M unit) : M unit :=
  match es with
  | [] => ret tt
  | e :: es' => body e ;; for_each es' body
  end.

Definition HOTEND_LOOP (cfg : config) (body : nat -> M unit) : M unit :=
  for_each (seq 0 (HOTENDS cfg)) body.

(** ** Text *)

Definition LF : string := String "010"%char EmptyString.

Definition int_text (n : Z) : string := NilZero.string_of_int (Z.to_int n).

(** Copying into a buffer of [size] characters: what does not fit is cut. *)
Fixpoint truncate (size : nat) (s : string) : string :=
  match size, s with
  | S n, String c s' => String c (truncate n s')
  | _, _ => EmptyString
  end.

(** ** The command line as the handler sees it

    The results of the parser's readers as functions of the command line;
    the lemmas below tie them to the stateful readers. *)
Definition has_val (parser : command) (c : ascii) : bool :=
  match parser c with Some (Some _) => true | _ => false end.

Definition long_or (parser : command) (c : ascii) (dval : Z) : Z :=
  match parser c with Some (Some v) => as_long v | _ => dval end.

Definition cursor_after (parser : command) (c : ascii) (st : Marlin) : Marlin :=
  match parser c with Some v => with_value_ptr v st | None => st end.

(** The element index read at line 57, before and after narrowing: the
    value of the local [e] of M306. *)
Definition raw_index (cfg : config) (parser : command) (st : Marlin) : Z :=
  if HAS_MULTI_EXTRUDER cfg
  then long_or parser "E" (active_extruder st) else 0.

Definition extruder_index (cfg : config) (parser : command) (st : Marlin) : Z :=
  uint8 (raw_index cfg parser st).

(** The state in which line 58 is reached. *)
Definition after_E (cfg : config) (parser : command) (st : Marlin) : Marlin :=
  if HAS_MULTI_EXTRUDER cfg then cursor_after parser "E" st else st.

(** Does the command carry an autotune request that this build honours? *)
Definition autotune_requested (cfg : config) (parser : command) : bool :=
  MPC_AUTOTUNE cfg && seen_test parser "T".

(** The strategy-selector byte of the command, if it carries one. *)
Definition strategy_selector (parser : command) : option Z :=
  match parser "S"%char with
  | Some (Some v) => Some (uint8 (as_long v))
  | _ => None
  end.

(** The strategy mapping in the spec's words (section 4.3, step 2): "absent
    or 0 -> AUTO, 1 -> FORCE_DIFFERENTIAL, 2 -> FORCE_ASYMPTOTIC, any other
    value -> treated as AUTO". *)
Definition strategy_of_selector (selector : option Z) : MPCTuningType :=
  match selector with
  | None => AUTO
  | Some b =>
      if b =? 0 then AUTO
      else if b =? 1 then FORCE_DIFFERENTIAL
      else if b =? 2 then FORCE_ASYMPTOTIC
      else AUTO
  end.

(** One field of the Parameter Editor: assigned when the letter carries a
    value, left alone otherwise. *)
Definition field_update (parser : command) (c : ascii)
    (set : float -> MPC_t -> MPC_t) (m : MPC_t) : MPC_t :=
  match parser c with Some (Some v) => set (as_float v) m | _ => m end.

(** The Parameter Editor in the spec's words (section 4.2): "for each
    recognized field present in updates, assign it to the Model Store
    record"; the fan field goes through the baseline-relative rule, and only
    exists when the fan feature is built in. *)
Definition apply_fields (cfg : config) (parser : command) (m : MPC_t) : MPC_t :=
  let m := field_update parser "P" set_heater_power m in
  let m := field_update parser "C" set_block_heat_capacity m in
  let m := field_update parser "R" set_sensor_responsiveness m in
  let m := field_update parser "A" set_ambient_xfer_coeff_fan0 m in
  let m := if MPC_INCLUDE_FAN cfg
           then field_update parser "F" applyFanAdjustment m else m in
  field_update parser "H" set_filament_heat_capacity_permm m.

(** The same command line with every coefficient field struck out. *)
Definition without_fields (parser : command) : command :=
  fun c => if existsb (Ascii.eqb c) (list_ascii_of_string "ACFPRH")
           then None else parser c.

(** The same command line with the word [c] struck out. *)
Definition without_arg (c : ascii) (parser : command) : command :=
  fun c' => if Ascii.eqb c' c then None else parser c'.

(** A computation that leaves the firmware alone apart from what it prints:
    whenever it returns, the Model Store, the active extruder and the value
    cursor are as before and the trace has only grown. *)
Definition framed {A} (m : M A) : Prop :=
  forall st a st',
    m st = Some (a, st') ->
    temp_hotend st' = temp_hotend st /\
    active_extruder st' = active_extruder st /\
    value_ptr st' = value_ptr st /\
    exists evs, trace st' = trace st ++ evs.


(** ** Sample data *)

(** An integer word such as [50]. *)
Definition number (n : Z) : code_value :=
  {| as_long := n; as_float := float_of_Z n |}.

(** [n / 10^d] as a float and as the integer [strtol] stops at. *)
Definition decimal (n : Z) (d : nat) : code_value :=
  {| as_long := n / 10 ^ Z.of_nat d;
     as_float := float_div (float_of_Z n) (float_of_Z (10 ^ Z.of_nat d)) |}.

(** The bare command, and a command with one more word. *)
Definition no_args : command := fun _ => None.

Definition with_arg (c : ascii) (v : option code_value) (parser : command) : command :=
  fun c' => if Ascii.eqb c' c then Some v else parser c'.

(** The record a 40 W build starts with, and a record an autotune found. *)
Definition stock_mpc : MPC_t :=
  {| heater_power := float_of_Z 40;
     block_heat_capacity := float_of_Z 16;
     sensor_responsiveness := float_of_Z 1;
     ambient_xfer_coeff_fan0 := float_of_Z 0;
     fan_delta := float_of_Z 0;
     filament_heat_capacity_permm := float_of_Z 0 |}.

Definition tuned_mpc : MPC_t :=
  {| heater_power := float_of_Z 50;
     block_heat_capacity := float_of_Z 33;
     sensor_responsiveness := as_float (decimal 1 1);
     ambient_xfer_coeff_fan0 := as_float (decimal 12 2);
     fan_delta := as_float (decimal 5 2);
     filament_heat_capacity_permm := as_float (decimal 4 1) |}.

(** The firmware before any command: extruder 0 active, nothing printed. *)
Definition boot (store : list MPC_t) : Marlin :=
  {| temp_hotend := store; active_extruder := 0; value_ptr := None; trace := [] |}.

(** A two-extruder printer that tunes locally. *)
Definition standalone : config :=
  {| HAS_MULTI_EXTRUDER := true; EXTRUDERS := 2; HOTENDS := 2;
     MPC_AUTOTUNE := true; MPC_INCLUDE_FAN := true;
     CAN_HOST := false; CAN_TOOLHEAD := false;
     MARLIN_SMALL_BUILD := false; MPC_HEATER_POWER := float_of_Z 40 |}.

(** The host of a CAN toolhead. *)
Definition host : config :=
  {| HAS_MULTI_EXTRUDER := false; EXTRUDERS := 1; HOTENDS := 1;
     MPC_AUTOTUNE := true; MPC_INCLUDE_FAN := false;
     CAN_HOST := true; CAN_TOOLHEAD := false;
     MARLIN_SMALL_BUILD := false; MPC_HEATER_POWER := float_of_Z 40 |}.

(** The CAN toolhead itself. *)
Definition toolhead : config :=
  {| HAS_MULTI_EXTRUDER := false; EXTRUDERS := 1; HOTENDS := 1;
     MPC_AUTOTUNE := true; MPC_INCLUDE_FAN := true;
     CAN_HOST := false; CAN_TOOLHEAD := true;
     MARLIN_SMALL_BUILD := false; MPC_HEATER_POWER := float_of_Z 40 |}.

(** A single-extruder printer without fan term and without CAN bus. *)
Definition plain : config :=
  {| HAS_MULTI_EXTRUDER := false; EXTRUDERS := 1; HOTENDS := 1;
     MPC_AUTOTUNE := true; MPC_INCLUDE_FAN := false;
     CAN_HOST := false; CAN_TOOLHEAD := false;
     MARLIN_SMALL_BUILD := false; MPC_HEATER_POWER := float_of_Z 40 |}.

(** A host whose operator has set the heater power of element 0 to 50 W
    ([M306 P50]), the build constant being 40 W. *)
Definition host_after_P50 : Marlin :=
  {| temp_hotend := [set_heater_power (float_of_Z 50) stock_mpc];
     active_extruder := 0;
     value_ptr := Some (number 50);
     trace := [] |}.

(** A toolhead built with [MARLIN_SMALL_BUILD]. *)
Definition small_toolhead : config :=
  {| HAS_MULTI_EXTRUDER := false; EXTRUDERS := 1; HOTENDS := 1;
     MPC_AUTOTUNE := true; MPC_INCLUDE_FAN := true;
     CAN_HOST := false; CAN_TOOLHEAD := true;
     MARLIN_SMALL_BUILD := true; MPC_HEATER_POWER := float_of_Z 40 |}.

(** A two-extruder printer built without [MPC_AUTOTUNE]. *)
Definition no_autotune : config :=
  {| HAS_MULTI_EXTRUDER := true; EXTRUDERS := 2; HOTENDS := 2;
     MPC_AUTOTUNE := false; MPC_INCLUDE_FAN := true;
     CAN_HOST := false; CAN_TOOLHEAD := false;
     MARLIN_SMALL_BUILD := false; MPC_HEATER_POWER := float_of_Z 40 |}.

(** A toolhead with two hotends. *)
Definition twin_toolhead : config :=
  {| HAS_MULTI_EXTRUDER := true; EXTRUDERS := 2; HOTENDS := 2;
     MPC_AUTOTUNE := true; MPC_INCLUDE_FAN := true;
     CAN_HOST := false; CAN_TOOLHEAD := true;
     MARLIN_SMALL_BUILD := false; MPC_HEATER_POWER := float_of_Z 40 |}.

(** The firmware with extruder [a] active. *)
Definition boot_active (a : Z) (store : list MPC_t) : Marlin :=
  {| temp_hotend := store; active_extruder := a; value_ptr := None; trace := [] |}.


(** An autotune that finds [tuned_mpc] for the element it was run on. *)
Definition sample_autotune (e : Z) (_ : MPCTuningType) (store : list MPC_t) : list MPC_t :=
  <[Z.to_nat e := tuned_mpc]> store.

(** Command lines used in the examples. *)

(** [M306 E5] *)
Definition cmd_E5 : command := with_arg "E" (Some (number 5)) no_args.

(** [M306 E256 P50] *)
Definition cmd_E256_P50 : command :=
  with_arg "E" (Some (number 256)) (with_arg "P" (Some (number 50)) no_args).

(** [M306 T P50] *)
Definition cmd_T_P50 : command :=
  with_arg "T" None (with_arg "P" (Some (number 50)) no_args).

(** [M306 E1 T S1] *)
Definition cmd_E1_T_S1 : command :=
  with_arg "E" (Some (number 1))
    (with_arg "T" None (with_arg "S" (Some (number 1)) no_args)).

(** [M306 T S7] *)
Definition cmd_T_S7 : command :=
  with_arg "T" None (with_arg "S" (Some (number 7)) no_args).

(** [M306 E1 F0.05] *)
Definition cmd_E1_F : command :=
  with_arg "E" (Some (number 1)) (with_arg "F" (Some (decimal 5 2)) no_args).

(** [M306 P C] *)
Definition cmd_P_C : command := with_arg "P" None (with_arg "C" None no_args).

(** [M306 E0 P150.0 C33.0 R0.1 A0.12 H0.4] *)
Definition cmd_scenario : command :=
  with_arg "E" (Some (number 0))
    (with_arg "P" (Some (number 150))
       (with_arg "C" (Some (number 33))
          (with_arg "R" (Some (decimal 1 1))
             (with_arg "A" (Some (decimal 12 2))
                (with_arg "H" (Some (decimal 4 1)) no_args))))).

(** [M306 F0.05] *)
Definition cmd_F : command := with_arg "F" (Some (decimal 5 2)) no_args.

(** [M306 P50] *)
Definition cmd_P50 : command := with_arg "P" (Some (number 50)) no_args.

(** [M306 P C33]: the first letter has no value. *)
Definition cmd_P_C33 : command :=
  with_arg "P" None (with_arg "C" (Some (number 33)) no_args).

(** [M306 T] *)
Definition cmd_T : command := with_arg "T" None no_args.


(** A fixed-point renderer for the examples: [d] decimal places, rounded
    half up on the exact value of the float. *)
Definition pad_digits (d : nat) (n : Z) : string :=
  let s := int_text n in
  string_of_list_ascii (repeat "0"%char (d - String.length s)) ++ s.

Definition sign_text (s : bool) : string := if s then "-" else EmptyString.

Definition sample_float_text (v : float) (d : nat) : string :=
  match v with
  | S754_zero s => (sign_text s ++ "0." ++ pad_digits d 0)%string
  | S754_infinity s => (sign_text s ++ "inf")%string
  | S754_nan => "nan"%string
  | S754_finite s m e =>
      let scale := 10 ^ Z.of_nat d in
      let q := if 0 <=? e then Z.pos m * 2 ^ e * scale
               else (2 * Z.pos m * scale + 2 ^ (- e)) / (2 * 2 ^ (- e)) in
      (sign_text s ++ int_text (q / scale) ++ "." ++ pad_digits d (q mod scale))%string
  end.

Section Externals.

(** How a [p_float_t] is rendered as text (libs/numtostr.h and the serial
    layer, not among the sources), and what the autotune procedure
    [Temperature::MPC_autotune] leaves in the Model Store. *)
Variable float_text : float -> nat -> string.
Variable autotune_result : Z -> MPCTuningType -> list MPC_t -> list MPC_t.

Definition arg_text (a : echo_arg) : string :=
  match a with
  | PGM s => s
  | int_arg n => int_text n
  | p_float_t v d => float_text v d
  end.

Definition args_text (args : list echo_arg) : string :=
  fold_right String.append EmptyString (map arg_text args).

(** [MString<SIZE> buffer(args...)] *)
Definition MString (SIZE : nat) (args : list echo_arg) : string :=
  truncate SIZE (args_text args).

(** [thermalManager.MPC_autotune(e, tuning_type)]: blocks until done. *)
Definition MPC_autotune (e : Z) (tuning_type : MPCTuningType) : M unit :=
  emit (Autotune e tuning_type) ;;
  modify (fun st => with_temp_hotend (autotune_result e tuning_type (temp_hotend st)) st).

(** ** GcodeSuite::M306_report *)
Definition M306_report (cfg : config) (forReplay : bool) : M unit :=
  if MARLIN_SMALL_BUILD cfg then ret tt else
  report_heading forReplay "Model predictive control" ;;
  when (CAN_HOST cfg && forReplay)
    (SERIAL_ECHOLNPGM [PGM ">>> Host M306 MPC settings:"]) ;;
  HOTEND_LOOP cfg (fun e =>
    report_echo_start forReplay ;;
    r <- mpc_ref e ;;
    mpc <- mpc_read r ;;
    SERIAL_ECHOPGM [PGM "  M306 E"; int_arg (Z.of_nat e);
                    PGM " P"; p_float_t (heater_power mpc) 2;
                    PGM " C"; p_float_t (block_heat_capacity mpc) 2;
                    PGM " R"; p_float_t (sensor_responsiveness mpc) 4;
                    PGM " A"; p_float_t (ambient_xfer_coeff_fan0 mpc) 4] ;;
    when (MPC_INCLUDE_FAN cfg)
      (SERIAL_ECHOPGM [PGM " F"; p_float_t (fanCoefficient mpc) 4]) ;;
    SERIAL_ECHOLNPGM [PGM " H"; p_float_t (filament_heat_capacity_permm mpc) 4]) ;;
  when (CAN_TOOLHEAD cfg && forReplay)
    (r <- mpc_ref 0 ;;
     mpc <- mpc_read r ;;
     let buffer :=
       MString 100
         ([PGM "M306 E0 P"; p_float_t (heater_power mpc) 2;
           PGM " C"; p_float_t (block_heat_capacity mpc) 2;
           PGM " R"; p_float_t (sensor_responsiveness mpc) 4;
           PGM " A"; p_float_t (ambient_xfer_coeff_fan0 mpc) 4]
          ++ (if MPC_INCLUDE_FAN cfg
              then [PGM " F"; p_float_t (fanCoefficient mpc) 4] else [])
          ++ [PGM " H"; p_float_t (filament_heat_capacity_permm mpc) 4]) in
     CAN_toolhead_send_string buffer).

(** ** GcodeSuite::M306 *)
Definition M306 (cfg : config) (parser : command) : M unit :=
  E <- TERN0 (HAS_MULTI_EXTRUDER cfg)
         (dval <- gets active_extruder ;; intval parser "E" dval) ;;
  let e := uint8 E in
  if e >=? EXTRUDERS cfg then
    SERIAL_ECHOLNPGM [PGM "?(E)xtruder index out of range (0-";
                      int_arg (EXTRUDERS cfg - 1); PGM ")."]
  else if MPC_AUTOTUNE cfg && seen_test parser "T" then
    if CAN_HOST cfg then
      SERIAL_ECHOLNPGM
        [PGM (">>> Forwarding M306 to toolhead" ++ LF ++
              ">>> Store MPC setup in the host Configuration.h or use M500" ++ LF ++
              ">>> MPC heater power is: ");
         p_float_t (MPC_HEATER_POWER cfg) 1;
         PGM (" Watts" ++ LF ++
              ">>> Please wait for the auto tune results...")]
    else
      S <- byteval parser "S" 0 ;;
      let type := uint8 S in
      let tuning_type :=
        match type with
        | 1 => FORCE_DIFFERENTIAL
        | 2 => FORCE_ASYMPTOTIC
        | _ => AUTO
        end in
      LCD_MESSAGE MSG_MPC_AUTOTUNE ;;
      MPC_autotune e tuning_type ;;
      ui_reset_status ;;
      when (CAN_TOOLHEAD cfg) (M306_report cfg true)
  else if seen_any parser "ACFPRH" then
    mpc <- mpc_ref (Z.to_nat e) ;;
    (P <- seenval parser "P" ;;
     when P (v <- value_float ;; mpc_assign mpc (set_heater_power v))) ;;
    (C <- seenval parser "C" ;;
     when C (v <- value_float ;; mpc_assign mpc (set_block_heat_capacity v))) ;;
    (R <- seenval parser "R" ;;
     when R (v <- value_float ;; mpc_assign mpc (set_sensor_responsiveness v))) ;;
    (A <- seenval parser "A" ;;
     when A (v <- value_float ;; mpc_assign mpc (set_ambient_xfer_coeff_fan0 v))) ;;
    when (MPC_INCLUDE_FAN cfg)
      (F <- seenval parser "F" ;;
       when F (v <- value_float ;; mpc_assign mpc (applyFanAdjustment v))) ;;
    (H <- seenval parser "H" ;;
     when H (v <- value_float ;;
             mpc_assign mpc (set_filament_heat_capacity_permm v)))
  else
    M306_report cfg true.

(** ** The canonical line *)

(** The text a console call puts on the line. *)
Definition event_text (ev : event) : string :=
  match ev with
  | Echo args => args_text args
  | EchoLn args => args_text args ++ LF
  | _ => EmptyString
  end.

Definition events_text (evs : list event) : string :=
  fold_right String.append EmptyString (map event_text evs).

(** The canonical form in the spec's words (section 4.4):
    [<cmd> E<index> P<power:2dp> C<capacity:2dp> R<responsiveness:4dp>
     A<ambient_fan0:4dp> [F<fan_delta:4dp>] H<filament_capacity:4dp>]. *)
Definition canonical_line (cfg : config) (e : Z) (mpc : MPC_t) : string :=
  "M306" ++
  " E" ++ int_text e ++
  " P" ++ float_text (heater_power mpc) 2 ++
  " C" ++ float_text (block_heat_capacity mpc) 2 ++
  " R" ++ float_text (sensor_responsiveness mpc) 4 ++
  " A" ++ float_text (ambient_xfer_coeff_fan0 mpc) 4 ++
  (if MPC_INCLUDE_FAN cfg
   then " F" ++ float_text (fanCoefficient mpc) 4 else EmptyString) ++
  " H" ++ float_text (filament_heat_capacity_permm mpc) 4.

(** The console calls that print one element of the report. *)
Definition element_echoes (cfg : config) (e : nat) (mpc : MPC_t) : list event :=
  [Echo [PGM "  M306 E"; int_arg (Z.of_nat e);
         PGM " P"; p_float_t (heater_power mpc) 2;
         PGM " C"; p_float_t (block_heat_capacity mpc) 2;
         PGM " R"; p_float_t (sensor_responsiveness mpc) 4;
         PGM " A"; p_float_t (ambient_xfer_coeff_fan0 mpc) 4]]
  ++ (if MPC_INCLUDE_FAN cfg
      then [Echo [PGM " F"; p_float_t (fanCoefficient mpc) 4]] else [])
  ++ [EchoLn [PGM " H"; p_float_t (filament_heat_capacity_permm mpc) 4]].

(** The notice that opens the report on a CAN host in replay mode. *)
Definition host_heading (cfg : config) (forReplay : bool) : list event :=
  if CAN_HOST cfg && forReplay
  then [EchoLn [PGM ">>> Host M306 MPC settings:"]] else [].

(** The forwarding notice of a CAN host. *)
Definition forwarding_notice (power : float) : event :=
  EchoLn [PGM (">>> Forwarding M306 to toolhead" ++ LF ++
               ">>> Store MPC setup in the host Configuration.h or use M500" ++ LF ++
               ">>> MPC heater power is: ");
          p_float_t power 1;
          PGM (" Watts" ++ LF ++
               ">>> Please wait for the auto tune results...")].

(** The range error of line 59. *)
Definition range_error (cfg : config) : event :=
  EchoLn [PGM "?(E)xtruder index out of range (0-";
          int_arg (EXTRUDERS cfg - 1); PGM ")."].

(** The message a toolhead sends to its host. *)
Definition can_report (cfg : config) (forReplay : bool) (store : list MPC_t) : list event :=
  if CAN_TOOLHEAD cfg && forReplay
  then match store with
       | mpc :: _ => [CanSend (truncate 100 (canonical_line cfg 0 mpc))]
       | [] => []
       end
  else [].

(** Everything one call of M306_report adds to the trace. *)
Definition report_events (cfg : config) (forReplay : bool) (store : list MPC_t)
    : list event :=
  if MARLIN_SMALL_BUILD cfg then []
  else Heading forReplay "Model predictive control"
       :: host_heading cfg forReplay
       ++ concat (imap (fun e mpc => EchoStart forReplay :: element_echoes cfg e mpc)
                       store)
       ++ can_report cfg forReplay store.

(** The report stays inside [temp_hotend]: the array has [HOTENDS] entries,
    and an element 0 when a toolhead sends it. *)
Definition report_ready (cfg : config) (forReplay : bool) (store : list MPC_t) : Prop :=
  MARLIN_SMALL_BUILD cfg = false ->
  HOTENDS cfg = length store /\
  (CAN_TOOLHEAD cfg && forReplay = true -> store <> []).

(** The state when the local autotune of lines 77-86 has returned and the
    status line is cleared. *)
Definition tuned (cfg : config) (parser : command) (st : Marlin) : Marlin :=
  let e := extruder_index cfg parser st in
  let tuning_type := strategy_of_selector (strategy_selector parser) in
  with_trace
    (trace st ++ [LcdMessage MSG_MPC_AUTOTUNE; Autotune e tuning_type; UiResetStatus])
    (with_temp_hotend (autotune_result e tuning_type (temp_hotend st))
       (cursor_after parser "S" (after_E cfg parser st))).

(** The state in which an autotune request leaves the firmware. *)
Definition dispatched (cfg : config) (parser : command) (st : Marlin) : Marlin :=
  if CAN_HOST cfg then
    with_trace (trace st ++ [forwarding_notice (MPC_HEATER_POWER cfg)])
      (after_E cfg parser st)
  else
    let st2 := tuned cfg parser st in
    if CAN_TOOLHEAD cfg
    then with_trace (trace st2 ++ report_events cfg true (temp_hotend st2)) st2
    else st2.

(** While the Parameter Editor works on record [r]: the store is the
    original one with the record edited so far, nothing else has moved. *)
Definition editing (store : list MPC_t) (r : nat) (m : MPC_t) (st0 st : Marlin) : Prop :=
  temp_hotend st = <[r := m]> store /\
  trace st = trace st0 /\
  active_extruder st = active_extruder st0.


(** ** Running the parser's readers *)

Lemma bind_run {A B} (m : M A) (k : A -> M B) st a st' :
  m st = Some (a, st') -> bind m k st = k a st'.
Proof. intros H. unfold bind. now rewrite H. Qed.

Lemma temp_hotend_cursor_after parser c st :
  temp_hotend (cursor_after parser c st) = temp_hotend st.
Proof. unfold cursor_after. now destruct (parser c). Qed.

Lemma trace_cursor_after parser c st :
  trace (cursor_after parser c st) = trace st.
Proof. unfold cursor_after. now destruct (parser c). Qed.

Lemma active_extruder_cursor_after parser c st :
  active_extruder (cursor_after parser c st) = active_extruder st.
Proof. unfold cursor_after. now destruct (parser c). Qed.

Lemma seenval_run parser c st :
  seenval parser c st = Some (has_val parser c, cursor_after parser c st).
Proof.
  unfold seenval, seen, has_val, cursor_after, bind.
  destruct (parser c) as [[v|]|]; reflexivity.
Qed.

Lemma value_float_run parser c v st :
  parser c = Some (Some v) ->
  value_float (cursor_after parser c st) = Some (as_float v, cursor_after parser c st).
Proof. intros H. unfold value_float, gets, cursor_after. now rewrite H. Qed.

Lemma intval_run parser c dval st :
  intval parser c dval st = Some (long_or parser c dval, cursor_after parser c st).
Proof.
  unfold intval. rewrite (bind_run _ _ _ _ _ (seenval_run parser c st)).
  unfold has_val, long_or, cursor_after, value_long, gets, ret.
  destruct (parser c) as [[v|]|]; reflexivity.
Qed.

Lemma byteval_run parser c dval st :
  byteval parser c dval st = Some (long_or parser c dval, cursor_after parser c st).
Proof. exact (intval_run parser c dval st). Qed.

Lemma temp_hotend_after_E cfg parser st :
  temp_hotend (after_E cfg parser st) = temp_hotend st.
Proof. unfold after_E. destruct (HAS_MULTI_EXTRUDER cfg); auto using temp_hotend_cursor_after. Qed.

Lemma trace_after_E cfg parser st :
  trace (after_E cfg parser st) = trace st.
Proof. unfold after_E. destruct (HAS_MULTI_EXTRUDER cfg); auto using trace_cursor_after. Qed.

Lemma active_extruder_after_E cfg parser st :
  active_extruder (after_E cfg parser st) = active_extruder st.
Proof.
  unfold after_E. destruct (HAS_MULTI_EXTRUDER cfg); auto using active_extruder_cursor_after.
Qed.

(** Reading a command word moves the value cursor and nothing else. *)
Create Rewrite HintDb frame.
#[local] Hint Rewrite
  temp_hotend_cursor_after trace_cursor_after active_extruder_cursor_after
  temp_hotend_after_E trace_after_E active_extruder_after_E : frame.

Lemma uint8_range x : 0 <= uint8 x < 256.
Proof. unfold uint8. apply Z.mod_pos_bound. reflexivity. Qed.

(** The local [e] is a [uint8_t]. *)
Lemma extruder_index_range cfg parser st :
  0 <= extruder_index cfg parser st < 256.
Proof. apply uint8_range. Qed.

(** Line 57: the element index is read. *)
Lemma M306_enter cfg parser {B} (k : Z -> M B) st :
  bind (TERN0 (HAS_MULTI_EXTRUDER cfg)
          (dval <- gets active_extruder ;; intval parser "E" dval)) k st
  = k (raw_index cfg parser st) (after_E cfg parser st).
Proof.
  unfold TERN0, raw_index, after_E.
  destruct (HAS_MULTI_EXTRUDER cfg).
  - unfold bind at 1. unfold bind at 1. unfold gets at 1.
    now rewrite intval_run.
  - reflexivity.
Qed.

(** ** Element index out of range *)

Lemma emit_run ev st :
  emit ev st = Some (tt, with_trace (trace st ++ [ev]) st).
Proof. reflexivity. Qed.

(** C1.  Whenever the element index [e] of the handler is at least
    [EXTRUDERS], M306 returns after one console call, the out-of-range
    notice: the Model Store is as it was, and the trace has grown by that
    notice alone, so the autotune procedure was not invoked. *)
Theorem M306_index_out_of_range cfg parser st :
  extruder_index cfg parser st >= EXTRUDERS cfg ->
  exists st',
    M306 cfg parser st = Some (tt, st') /\
    temp_hotend st' = temp_hotend st /\
    active_extruder st' = active_extruder st /\
    trace st' = trace st ++ [range_error cfg].
Proof.
  intros Hrange.
  unfold M306. rewrite M306_enter. cbv zeta. fold (extruder_index cfg parser st).
  assert (Hge : (extruder_index cfg parser st >=? EXTRUDERS cfg) = true)
    by (rewrite Z.geb_leb; apply Z.leb_le; lia).
  rewrite Hge. unfold SERIAL_ECHOLNPGM. rewrite emit_run.
  eexists. split; [reflexivity|]. cbn.
  autorewrite with frame. auto.
Qed.


(** ** The settings report *)

Lemma with_trace_same st : with_trace (trace st) st = st.
Proof. now destruct st. Qed.

(** A loop whose body only prints, one batch of calls per element. *)
Lemma for_each_lines (body : nat -> M unit) (line : nat -> MPC_t -> list event) :
  (forall e m st, temp_hotend st !! e = Some m ->
     body e st = Some (tt, with_trace (trace st ++ line e m) st)) ->
  forall (l : list MPC_t) (a : nat) st,
    drop a (temp_hotend st) = l ->
    for_each (seq a (length l)) body st
    = Some (tt, with_trace
                  (trace st ++ concat (imap (fun i m => line (a + i)%nat m) l)) st).
Proof.
  intros Hbody l. induction l as [|m l IH]; intros a st Hdrop.
  - cbn. now rewrite app_nil_r, with_trace_same.
  - assert (Hm : temp_hotend st !! a = Some m).
    { rewrite <- (Nat.add_0_r a), <- lookup_drop, Hdrop. reflexivity. }
    cbn [length seq for_each].
    rewrite (bind_run _ _ _ _ _ (Hbody a m st Hm)).
    rewrite IH.
    + rewrite imap_cons. cbn [concat]. cbn [trace with_trace].
      rewrite Nat.add_0_r, <- app_assoc.
      rewrite (imap_ext (fun i m => line (S a + i)%nat m)
                        ((fun i m => line (a + i)%nat m) ∘ S) l).
      * reflexivity.
      * intros i x _. cbn. f_equal. lia.
    + cbn [temp_hotend with_trace].
      rewrite (drop_S _ _ _ Hm) in Hdrop. now injection Hdrop.
Qed.

(** The body of the [HOTEND_LOOP] of M306_report. *)
Lemma report_element_run cfg forReplay e m st :
  temp_hotend st !! e = Some m ->
  (report_echo_start forReplay ;;
   r <- mpc_ref e ;;
   mpc <- mpc_read r ;;
   SERIAL_ECHOPGM [PGM "  M306 E"; int_arg (Z.of_nat e);
                   PGM " P"; p_float_t (heater_power mpc) 2;
                   PGM " C"; p_float_t (block_heat_capacity mpc) 2;
                   PGM " R"; p_float_t (sensor_responsiveness mpc) 4;
                   PGM " A"; p_float_t (ambient_xfer_coeff_fan0 mpc) 4] ;;
   when (MPC_INCLUDE_FAN cfg)
     (SERIAL_ECHOPGM [PGM " F"; p_float_t (fanCoefficient mpc) 4]) ;;
   SERIAL_ECHOLNPGM [PGM " H"; p_float_t (filament_heat_capacity_permm mpc) 4]) st
  = Some (tt, with_trace
                (trace st ++ EchoStart forReplay :: element_echoes cfg e m) st).
Proof.
  intros Hm.
  unfold bind, report_echo_start, SERIAL_ECHOPGM, SERIAL_ECHOLNPGM, emit, modify,
    mpc_ref, mpc_read, when, ret, element_echoes.
  cbn [temp_hotend with_trace trace]. rewrite Hm. cbn [temp_hotend with_trace]. rewrite Hm.
  destruct (MPC_INCLUDE_FAN cfg); cbn [temp_hotend with_trace trace active_extruder value_ptr];
    unfold with_trace; cbn [temp_hotend with_trace trace active_extruder value_ptr];
    rewrite <- !app_assoc; reflexivity.
Qed.

Lemma append_assoc (a b c : string) : ((a ++ b) ++ c = a ++ (b ++ c))%string.
Proof. induction a as [|x a IH]; cbn; [reflexivity | now rewrite IH]. Qed.

Lemma append_nil_r (a : string) : (a ++ EmptyString = a)%string.
Proof. induction a as [|x a IH]; cbn; [reflexivity | now rewrite IH]. Qed.

Lemma truncate_length size s : (String.length (truncate size s) <= size)%nat.
Proof.
  revert s. induction size as [|n IH]; intros [|c s]; cbn; try lia.
  specialize (IH s). lia.
Qed.

Lemma truncate_fits size s :
  (String.length s <= size)%nat -> truncate size s = s.
Proof.
  revert s. induction size as [|n IH]; intros [|c s]; cbn; intros H;
    try reflexivity; try lia.
  rewrite IH; [reflexivity | lia].
Qed.

(** Right-nest every concatenation and push the literals inwards. *)
Ltac string_norm :=
  unfold LF; cbn;
  repeat (progress (rewrite ?append_assoc, ?append_nil_r; cbn)).

(** The calls for one element put the canonical line on the console,
    indented by two spaces and ended by a line feed. *)
Lemma element_echoes_text cfg e m :
  events_text (element_echoes cfg e m)
  = ("  " ++ canonical_line cfg (Z.of_nat e) m ++ LF)%string.
Proof.
  unfold element_echoes, canonical_line, events_text.
  destruct (MPC_INCLUDE_FAN cfg); string_norm; reflexivity.
Qed.

(** The arguments handed to the [MString] constructor spell the canonical
    line of element 0. *)
Lemma can_buffer_text cfg m :
  MString 100
    ([PGM "M306 E0 P"; p_float_t (heater_power m) 2;
      PGM " C"; p_float_t (block_heat_capacity m) 2;
      PGM " R"; p_float_t (sensor_responsiveness m) 4;
      PGM " A"; p_float_t (ambient_xfer_coeff_fan0 m) 4]
     ++ (if MPC_INCLUDE_FAN cfg
         then [PGM " F"; p_float_t (fanCoefficient m) 4] else [])
     ++ [PGM " H"; p_float_t (filament_heat_capacity_permm m) 4])
  = truncate 100 (canonical_line cfg 0 m).
Proof.
  unfold MString, canonical_line. f_equal.
  destruct (MPC_INCLUDE_FAN cfg); string_norm; reflexivity.
Qed.

Lemma M306_report_small cfg forReplay st :
  MARLIN_SMALL_BUILD cfg = true -> M306_report cfg forReplay st = Some (tt, st).
Proof. intros H. unfold M306_report. now rewrite H. Qed.

Lemma M306_report_run cfg forReplay st :
  MARLIN_SMALL_BUILD cfg = false ->
  HOTENDS cfg = length (temp_hotend st) ->
  (CAN_TOOLHEAD cfg && forReplay = true -> temp_hotend st <> []) ->
  M306_report cfg forReplay st
  = Some (tt, with_trace
                (trace st
                 ++ Heading forReplay "Model predictive control"
                    :: host_heading cfg forReplay
                 ++ concat (imap (fun e mpc =>
                                    EchoStart forReplay :: element_echoes cfg e mpc)
                                 (temp_hotend st))
                 ++ can_report cfg forReplay (temp_hotend st)) st).
Proof.
  intros Hsmall Hlen Hhead.
  unfold M306_report. rewrite Hsmall.
  unfold report_heading. rewrite (bind_run _ _ _ _ _ (emit_run _ st)).
  set (st1 := with_trace (trace st ++ [Heading forReplay "Model predictive control"]) st).
  assert (Hhost : when (CAN_HOST cfg && forReplay)
                    (SERIAL_ECHOLNPGM [PGM ">>> Host M306 MPC settings:"]) st1
                  = Some (tt, with_trace (trace st1 ++ host_heading cfg forReplay) st1)).
  { unfold host_heading, when. destruct (CAN_HOST cfg && forReplay).
    - reflexivity.
    - unfold ret. now rewrite app_nil_r, with_trace_same. }
  rewrite (bind_run _ _ _ _ _ Hhost).
  set (st2 := with_trace (trace st1 ++ host_heading cfg forReplay) st1).
  unfold HOTEND_LOOP. rewrite Hlen.
  change (temp_hotend st) with (temp_hotend st2) at 1.
  erewrite bind_run;
    [| apply (for_each_lines _ (fun e mpc => EchoStart forReplay :: element_echoes cfg e mpc));
       [intros e m st' Hm; apply (report_element_run cfg forReplay e m st' Hm)
       | apply drop_0]].
  cbn [Nat.add].
  set (st3 := with_trace _ st2).
  unfold can_report, when.
  destruct (CAN_TOOLHEAD cfg && forReplay) eqn:Hcan.
  - destruct (temp_hotend st) as [|m0 store] eqn:Hstore; [now destruct Hhead|].
    unfold mpc_ref, mpc_read, bind.
    change (temp_hotend st3) with (temp_hotend st). rewrite Hstore. cbn [lookup list_lookup].
    change (temp_hotend st3) with (temp_hotend st). rewrite Hstore. cbn [lookup list_lookup].
    rewrite can_buffer_text. unfold CAN_toolhead_send_string. rewrite emit_run.
    subst st3 st2 st1. unfold with_trace. cbn [temp_hotend trace active_extruder value_ptr].
    rewrite Hstore, <- !app_assoc. reflexivity.
  - unfold ret. subst st3 st2 st1. unfold with_trace.
    cbn [temp_hotend trace active_extruder value_ptr].
    rewrite <- !app_assoc, app_nil_r. reflexivity.
Qed.


Lemma M306_report_events cfg forReplay st :
  report_ready cfg forReplay (temp_hotend st) ->
  M306_report cfg forReplay st
  = Some (tt, with_trace
                (trace st ++ report_events cfg forReplay (temp_hotend st)) st).
Proof.
  intros Hready. unfold report_events.
  destruct (MARLIN_SMALL_BUILD cfg) eqn:Hsmall.
  - rewrite M306_report_small by assumption.
    now rewrite app_nil_r, with_trace_same.
  - destruct (Hready Hsmall) as [Hlen Hhead].
    now apply M306_report_run.
Qed.

(** C4.  Unless the build suppresses reports, M306_report returns with the
    Model Store untouched, having added to the trace the heading, the host
    notice if any, then for every heating element in index order the
    echo-start call followed by the calls of that element, then the bus
    message if any.  The calls of an element put on the console exactly one
    line: the canonical line of the element (command token, E index, P and C
    with 2 decimals, R and A with 4, F with 4 when the fan term is built in,
    H with 4, in that order), after two spaces and before the line feed. *)
Theorem M306_report_canonical cfg forReplay st :
  MARLIN_SMALL_BUILD cfg = false ->
  HOTENDS cfg = length (temp_hotend st) ->
  (CAN_TOOLHEAD cfg && forReplay = true -> temp_hotend st <> []) ->
  exists st',
    M306_report cfg forReplay st = Some (tt, st') /\
    temp_hotend st' = temp_hotend st /\
    trace st'
    = trace st
      ++ Heading forReplay "Model predictive control"
         :: host_heading cfg forReplay
      ++ concat (imap (fun e mpc => EchoStart forReplay :: element_echoes cfg e mpc)
                      (temp_hotend st))
      ++ can_report cfg forReplay (temp_hotend st) /\
    forall e mpc,
      temp_hotend st !! e = Some mpc ->
      events_text (element_echoes cfg e mpc)
      = ("  " ++ canonical_line cfg (Z.of_nat e) mpc ++ LF)%string.
Proof.
  intros Hsmall Hlen Hhead.
  eexists. split; [now apply M306_report_run|].
  split; [reflexivity|]. split; [reflexivity|].
  intros e mpc _. apply element_echoes_text.
Qed.

(** C8.  On a toolhead, a report in replay mode returns with the Model
    Store untouched, having made the same console calls as on any other
    unit, one batch per element, and after them exactly one bus
    transmission.  What is sent is the canonical line of element 0, computed
    from the record of element 0 alone, cut to the 100 characters of the
    buffer: it is never longer than 100 characters and it is the whole line
    whenever the line fits. *)
Theorem M306_report_toolhead cfg st mpc0 others :
  CAN_TOOLHEAD cfg = true ->
  MARLIN_SMALL_BUILD cfg = false ->
  temp_hotend st = mpc0 :: others ->
  HOTENDS cfg = length (temp_hotend st) ->
  exists st' buffer,
    M306_report cfg true st = Some (tt, st') /\
    temp_hotend st' = temp_hotend st /\
    trace st'
    = (trace st
       ++ Heading true "Model predictive control"
          :: host_heading cfg true
       ++ concat (imap (fun e mpc => EchoStart true :: element_echoes cfg e mpc)
                       (temp_hotend st)))
      ++ [CanSend buffer] /\
    buffer = truncate 100 (canonical_line cfg 0 mpc0) /\
    (String.length buffer <= 100)%nat /\
    ((String.length (canonical_line cfg 0 mpc0) <= 100)%nat ->
     buffer = canonical_line cfg 0 mpc0).
Proof.
  intros Hcan Hsmall Hstore Hlen.
  exists (with_trace
            (trace st
             ++ Heading true "Model predictive control"
                :: host_heading cfg true
             ++ concat (imap (fun e mpc => EchoStart true :: element_echoes cfg e mpc)
                             (temp_hotend st))
             ++ can_report cfg true (temp_hotend st)) st),
         (truncate 100 (canonical_line cfg 0 mpc0)).
  split.
  { apply M306_report_run; try assumption. intros _. now rewrite Hstore. }
  split; [reflexivity|]. split.
  { cbn [trace with_trace]. unfold can_report. rewrite Hcan, Hstore. cbn [andb].
    rewrite <- app_assoc. cbn [app]. now rewrite <- app_assoc. }
  split; [reflexivity|]. split; [apply truncate_length|].
  apply truncate_fits.
Qed.


(** ** The autotune dispatcher *)

(** The [switch] of lines 79-83 is the spec's strategy mapping. *)
Lemma tuning_type_mapping parser :
  match uint8 (long_or parser "S" 0) with
  | 1 => FORCE_DIFFERENTIAL
  | 2 => FORCE_ASYMPTOTIC
  | _ => AUTO
  end = strategy_of_selector (strategy_selector parser).
Proof.
  unfold long_or, strategy_selector, strategy_of_selector.
  destruct (parser "S"%char) as [[v|]|]; try reflexivity.
  destruct (uint8 (as_long v)) as [|[p|[p|p|]|]|p]; reflexivity.
Qed.

Lemma in_range_geb cfg parser st :
  extruder_index cfg parser st < EXTRUDERS cfg ->
  (extruder_index cfg parser st >=? EXTRUDERS cfg) = false.
Proof. intros H. rewrite Z.geb_leb. apply Z.leb_gt. lia. Qed.

Lemma M306_local_dispatch cfg parser st :
  extruder_index cfg parser st < EXTRUDERS cfg ->
  autotune_requested cfg parser = true ->
  CAN_HOST cfg = false ->
  M306 cfg parser st
  = when (CAN_TOOLHEAD cfg) (M306_report cfg true) (tuned cfg parser st).
Proof.
  intros Hrange Hreq Hhost.
  unfold M306. rewrite M306_enter. cbv zeta. fold (extruder_index cfg parser st).
  rewrite (in_range_geb _ _ _ Hrange).
  unfold autotune_requested in Hreq. rewrite Hreq, Hhost.
  rewrite (bind_run _ _ _ _ _ (byteval_run parser "S" 0 _)).
  rewrite tuning_type_mapping.
  unfold LCD_MESSAGE, MPC_autotune, ui_reset_status.
  rewrite (bind_run _ _ _ _ _ (emit_run _ _)).
  unfold bind at 1. unfold bind at 1. rewrite emit_run. unfold modify.
  rewrite (bind_run _ _ _ _ _ (emit_run _ _)).
  f_equal. unfold tuned, with_trace, with_temp_hotend.
  cbn [temp_hotend trace active_extruder value_ptr].
  rewrite <- !app_assoc. cbn [app].
  now autorewrite with frame.
Qed.

Lemma M306_dispatch_run cfg parser st :
  extruder_index cfg parser st < EXTRUDERS cfg ->
  autotune_requested cfg parser = true ->
  (CAN_HOST cfg = false -> CAN_TOOLHEAD cfg = true ->
   report_ready cfg true (temp_hotend (tuned cfg parser st))) ->
  M306 cfg parser st = Some (tt, dispatched cfg parser st).
Proof.
  intros Hrange Hreq Hready. unfold dispatched.
  destruct (CAN_HOST cfg) eqn:Hhost.
  - unfold M306. rewrite M306_enter. cbv zeta. fold (extruder_index cfg parser st).
    rewrite (in_range_geb _ _ _ Hrange).
    unfold autotune_requested in Hreq. rewrite Hreq, Hhost.
    unfold SERIAL_ECHOLNPGM. rewrite emit_run. now rewrite trace_after_E.
  - rewrite M306_local_dispatch by assumption.
    destruct (CAN_TOOLHEAD cfg) eqn:Htool; cbn [when].
    + apply M306_report_events. now apply Hready.
    + reflexivity.
Qed.

(** Striking out the coefficient fields leaves the words E, T and S of the
    command line alone. *)
Lemma M306_without_fields cfg parser st :
  autotune_requested cfg parser = true ->
  M306 cfg parser st = M306 cfg (without_fields parser) st.
Proof.
  intros Hreq. unfold M306. rewrite !M306_enter. cbv zeta.
  change (raw_index cfg (without_fields parser) st) with (raw_index cfg parser st).
  change (after_E cfg (without_fields parser) st) with (after_E cfg parser st).
  destruct (uint8 (raw_index cfg parser st) >=? EXTRUDERS cfg); [reflexivity|].
  change (seen_test (without_fields parser) "T") with (seen_test parser "T").
  unfold autotune_requested in Hreq. rewrite Hreq.
  destruct (CAN_HOST cfg); reflexivity.
Qed.

(** C2.  A command with an autotune request that this build honours is
    handled exactly as the same command with every coefficient field struck
    out: the field assignments are ignored.  When the element index is in
    range (and, on a toolhead, the report that follows stays inside the
    store) the handler returns in the state the dispatch alone produces: the
    Model Store is as it was on a host, and as the autotune procedure left it
    otherwise. *)
Theorem M306_autotune_precedence cfg parser st :
  MPC_AUTOTUNE cfg = true ->
  seen_test parser "T" = true ->
  M306 cfg parser st = M306 cfg (without_fields parser) st /\
  (extruder_index cfg parser st < EXTRUDERS cfg ->
   (CAN_HOST cfg = false -> CAN_TOOLHEAD cfg = true ->
    report_ready cfg true
      (autotune_result (extruder_index cfg parser st)
         (strategy_of_selector (strategy_selector parser)) (temp_hotend st))) ->
   M306 cfg parser st = Some (tt, dispatched cfg (without_fields parser) st) /\
   temp_hotend (dispatched cfg (without_fields parser) st)
   = if CAN_HOST cfg then temp_hotend st
     else autotune_result (extruder_index cfg parser st)
            (strategy_of_selector (strategy_selector parser)) (temp_hotend st)).
Proof.
  intros Hauto HT.
  assert (Hreq : autotune_requested cfg parser = true)
    by (unfold autotune_requested; now rewrite Hauto, HT).
  split; [now apply M306_without_fields|].
  intros Hrange Hready.
  change (dispatched cfg (without_fields parser) st) with (dispatched cfg parser st).
  split; [now apply M306_dispatch_run|].
  unfold dispatched.
  destruct (CAN_HOST cfg); [apply temp_hotend_after_E|].
  destruct (CAN_TOOLHEAD cfg); reflexivity.
Qed.

(** C3.  In the local-execution role an autotune request for an element in
    range makes the handler announce the tuning on the LCD, invoke the
    autotune procedure once, with the strategy the spec's mapping gives for
    the selector byte of the command (absent or 0: AUTO, 1:
    FORCE_DIFFERENTIAL, 2: FORCE_ASYMPTOTIC, anything else: AUTO), and clear
    the status; whatever the selector, no error is printed.  A toolhead then
    reports. *)
Theorem M306_strategy_mapping cfg parser st :
  MPC_AUTOTUNE cfg = true ->
  CAN_HOST cfg = false ->
  seen_test parser "T" = true ->
  extruder_index cfg parser st < EXTRUDERS cfg ->
  (CAN_TOOLHEAD cfg = true ->
   report_ready cfg true
     (autotune_result (extruder_index cfg parser st)
        (strategy_of_selector (strategy_selector parser)) (temp_hotend st))) ->
  exists st',
    M306 cfg parser st = Some (tt, st') /\
    temp_hotend st'
    = autotune_result (extruder_index cfg parser st)
        (strategy_of_selector (strategy_selector parser)) (temp_hotend st) /\
    trace st'
    = trace st
      ++ [LcdMessage MSG_MPC_AUTOTUNE;
          Autotune (extruder_index cfg parser st)
                   (strategy_of_selector (strategy_selector parser));
          UiResetStatus]
      ++ (if CAN_TOOLHEAD cfg
          then report_events cfg true
                 (autotune_result (extruder_index cfg parser st)
                    (strategy_of_selector (strategy_selector parser)) (temp_hotend st))
          else []).
Proof.
  intros Hauto Hhost HT Hrange Hready.
  assert (Hreq : autotune_requested cfg parser = true)
    by (unfold autotune_requested; now rewrite Hauto, HT).
  exists (dispatched cfg parser st).
  split; [apply M306_dispatch_run; auto|].
  unfold dispatched. rewrite Hhost.
  destruct (CAN_TOOLHEAD cfg); cbn [tuned temp_hotend trace with_trace with_temp_hotend].
  - split; [reflexivity|]. now rewrite <- app_assoc.
  - split; [reflexivity|]. now rewrite app_nil_r.
Qed.

(** C6.  On a CAN host an autotune request for an element in range,
    whatever its strategy selector, returns after a single console call: the
    Model Store and the active extruder are as they were and the trace has
    grown by that call alone, so the autotune procedure was not invoked. *)
Theorem M306_host_forwards cfg parser st :
  MPC_AUTOTUNE cfg = true ->
  CAN_HOST cfg = true ->
  seen_test parser "T" = true ->
  extruder_index cfg parser st < EXTRUDERS cfg ->
  exists st' notice,
    M306 cfg parser st = Some (tt, st') /\
    temp_hotend st' = temp_hotend st /\
    active_extruder st' = active_extruder st /\
    trace st' = trace st ++ [EchoLn notice].
Proof.
  intros Hauto Hhost HT Hrange.
  assert (Hreq : autotune_requested cfg parser = true)
    by (unfold autotune_requested; now rewrite Hauto, HT).
  exists (dispatched cfg parser st). eexists.
  split; [apply M306_dispatch_run; auto; congruence|].
  unfold dispatched. rewrite Hhost. cbn [temp_hotend active_extruder trace with_trace].
  autorewrite with frame. repeat split; reflexivity.
Qed.

(** C7, as the code has it.  The forwarding notice of a CAN host shows the
    heater power of the build configuration, [MPC_HEATER_POWER], with one
    decimal place -- whatever the Model Store holds. *)
Theorem M306_host_notice_power cfg parser st :
  MPC_AUTOTUNE cfg = true ->
  CAN_HOST cfg = true ->
  seen_test parser "T" = true ->
  extruder_index cfg parser st < EXTRUDERS cfg ->
  forall store,
  exists st',
    M306 cfg parser (with_temp_hotend store st) = Some (tt, st') /\
    trace st' = trace st ++ [forwarding_notice (MPC_HEATER_POWER cfg)] /\
    In (p_float_t (MPC_HEATER_POWER cfg) 1)
       (echo_args (forwarding_notice (MPC_HEATER_POWER cfg))).
Proof.
  intros Hauto Hhost HT Hrange store.
  assert (Hreq : autotune_requested cfg parser = true)
    by (unfold autotune_requested; now rewrite Hauto, HT).
  exists (dispatched cfg parser (with_temp_hotend store st)).
  split; [apply M306_dispatch_run; auto; congruence|].
  unfold dispatched. rewrite Hhost. cbn [trace with_trace with_temp_hotend].
  split; [reflexivity|]. cbn. auto.
Qed.


(** ** The Parameter Editor *)

Lemma with_temp_hotend_same st : with_temp_hotend (temp_hotend st) st = st.
Proof. now destruct st. Qed.

(** One line of the editor: [if (parser.seenval(c)) mpc.field =
    parser.value_float();]. *)
Lemma field_step parser c (set : float -> MPC_t -> MPC_t) store r m st0 st :
  (r < length store)%nat ->
  editing store r m st0 st ->
  exists st',
    (s <- seenval parser c ;;
     when s (v <- value_float ;; mpc_assign r (set v))) st = Some (tt, st') /\
    editing store r (field_update parser c set m) st0 st'.
Proof.
  intros Hr (Hstore & Htrace & Hactive).
  rewrite (bind_run _ _ _ _ _ (seenval_run parser c st)).
  unfold has_val, field_update.
  destruct (parser c) as [[v|]|] eqn:Hc; cbn [when].
  - rewrite (bind_run _ _ _ _ _ (value_float_run parser c v st Hc)).
    unfold mpc_assign. rewrite temp_hotend_cursor_after, Hstore.
    rewrite list_lookup_insert_eq by assumption.
    eexists. split; [reflexivity|].
    unfold editing. cbn [temp_hotend trace active_extruder with_temp_hotend].
    rewrite list_insert_insert_eq. autorewrite with frame. auto.
  - eexists. split; [reflexivity|].
    unfold editing. autorewrite with frame. auto.
  - eexists. split; [reflexivity|].
    unfold editing. autorewrite with frame. auto.
Qed.

(** Lines 97-108: the field-update path. *)
Lemma M306_update_run cfg parser st m :
  extruder_index cfg parser st < EXTRUDERS cfg ->
  autotune_requested cfg parser = false ->
  seen_any parser "ACFPRH" = true ->
  temp_hotend st !! Z.to_nat (extruder_index cfg parser st) = Some m ->
  exists st',
    M306 cfg parser st = Some (tt, st') /\
    temp_hotend st'
    = <[Z.to_nat (extruder_index cfg parser st) := apply_fields cfg parser m]>
        (temp_hotend st) /\
    trace st' = trace st /\
    active_extruder st' = active_extruder st.
Proof.
  intros Hrange Hreq Hseen Hm.
  unfold M306. rewrite M306_enter. cbv zeta. fold (extruder_index cfg parser st).
  rewrite (in_range_geb _ _ _ Hrange).
  unfold autotune_requested in Hreq. rewrite Hreq, Hseen.
  set (r := Z.to_nat (extruder_index cfg parser st)) in *.
  assert (Hr : (r < length (temp_hotend st))%nat) by (eapply lookup_lt_Some; eassumption).
  assert (Href : mpc_ref r (after_E cfg parser st) = Some (r, after_E cfg parser st)).
  { unfold mpc_ref. now rewrite temp_hotend_after_E, Hm. }
  rewrite (bind_run _ _ _ _ _ Href).
  assert (H0 : editing (temp_hotend st) r m st (after_E cfg parser st)).
  { unfold editing. autorewrite with frame. now rewrite list_insert_id. }
  destruct (field_step parser "P" set_heater_power _ _ _ _ _ Hr H0) as (st1 & E1 & H1).
  rewrite (bind_run _ _ _ _ _ E1).
  destruct (field_step parser "C" set_block_heat_capacity _ _ _ _ _ Hr H1) as (st2 & E2 & H2).
  rewrite (bind_run _ _ _ _ _ E2).
  destruct (field_step parser "R" set_sensor_responsiveness _ _ _ _ _ Hr H2) as (st3 & E3 & H3).
  rewrite (bind_run _ _ _ _ _ E3).
  destruct (field_step parser "A" set_ambient_xfer_coeff_fan0 _ _ _ _ _ Hr H3) as (st4 & E4 & H4).
  rewrite (bind_run _ _ _ _ _ E4).
  unfold apply_fields.
  destruct (MPC_INCLUDE_FAN cfg); cbn [when].
  - destruct (field_step parser "F" applyFanAdjustment _ _ _ _ _ Hr H4) as (st5 & E5 & H5).
    rewrite (bind_run _ _ _ _ _ E5).
    destruct (field_step parser "H" set_filament_heat_capacity_permm _ _ _ _ _ Hr H5)
      as (st6 & E6 & H6).
    exists st6. split; [exact E6|]. exact H6.
  - unfold ret at 1. unfold bind at 1.
    destruct (field_step parser "H" set_filament_heat_capacity_permm _ _ _ _ _ Hr H4)
      as (st6 & E6 & H6).
    exists st6. split; [exact E6|]. exact H6.
Qed.


Lemma field_update_preserves {X} (proj : MPC_t -> X) parser c set m :
  (forall v m', proj (set v m') = proj m') ->
  proj (field_update parser c set m) = proj m.
Proof.
  intros Hset. unfold field_update.
  destruct (parser c) as [[v|]|]; auto.
Qed.

Lemma field_update_no_value parser c set m :
  has_val parser c = false -> field_update parser c set m = m.
Proof.
  unfold has_val, field_update.
  destruct (parser c) as [[v|]|]; [discriminate | reflexivity | reflexivity].
Qed.

Lemma seen_any_field parser c :
  In c (list_ascii_of_string "ACFPRH") ->
  seen_test parser c = true ->
  seen_any parser "ACFPRH" = true.
Proof.
  intros Hin Hseen. unfold seen_any.
  apply existsb_exists. exists c. auto.
Qed.


(** C5.  With the fan term built in, a command without autotune request
    that carries [F] with value [v], for an element in range, returns with
    nothing printed and only the record of that element edited.  In the
    edited record the derived fan coefficient is exactly [v]; the no-fan
    baseline [ambient_xfer_coeff_fan0] is what it was unless the command
    also assigns [A]; and when [F] is the only letter with a value the record
    is the old one passed through [applyFanAdjustment]: the fan value goes
    through the baseline-relative rule, never through a field assignment. *)
Theorem M306_fan_update cfg parser st m v :
  MPC_INCLUDE_FAN cfg = true ->
  extruder_index cfg parser st < EXTRUDERS cfg ->
  autotune_requested cfg parser = false ->
  temp_hotend st !! Z.to_nat (extruder_index cfg parser st) = Some m ->
  parser "F"%char = Some (Some v) ->
  exists st' m',
    M306 cfg parser st = Some (tt, st') /\
    temp_hotend st'
    = <[Z.to_nat (extruder_index cfg parser st) := m']> (temp_hotend st) /\
    trace st' = trace st /\
    fanCoefficient m' = as_float v /\
    (has_val parser "A" = false ->
     ambient_xfer_coeff_fan0 m' = ambient_xfer_coeff_fan0 m) /\
    ((forall c, c <> "F"%char -> has_val parser c = false) ->
     m' = applyFanAdjustment (as_float v) m).
Proof.
  intros Hfan Hrange Hreq Hm HF.
  assert (Hseen : seen_any parser "ACFPRH" = true).
  { apply (seen_any_field parser "F"); [cbn; auto|].
    unfold seen_test. now rewrite HF. }
  destruct (M306_update_run cfg parser st m Hrange Hreq Hseen Hm)
    as (st' & Hrun & Hstore & Htrace & _).
  exists st', (apply_fields cfg parser m).
  split; [exact Hrun|]. split; [exact Hstore|]. split; [exact Htrace|].
  unfold apply_fields. rewrite Hfan.
  split; [|split].
  - unfold fanCoefficient.
    rewrite (field_update_preserves fan_delta) by reflexivity.
    unfold field_update at 1. now rewrite HF.
  - intros HA.
    rewrite (field_update_preserves ambient_xfer_coeff_fan0) by reflexivity.
    rewrite (field_update_preserves ambient_xfer_coeff_fan0) by reflexivity.
    rewrite (field_update_no_value parser "A") by assumption.
    rewrite (field_update_preserves ambient_xfer_coeff_fan0) by reflexivity.
    rewrite (field_update_preserves ambient_xfer_coeff_fan0) by reflexivity.
    apply (field_update_preserves ambient_xfer_coeff_fan0). reflexivity.
  - intros Hothers.
    rewrite (field_update_no_value parser "H") by (apply Hothers; discriminate).
    rewrite (field_update_no_value parser "P") by (apply Hothers; discriminate).
    rewrite (field_update_no_value parser "C") by (apply Hothers; discriminate).
    rewrite (field_update_no_value parser "R") by (apply Hothers; discriminate).
    rewrite (field_update_no_value parser "A") by (apply Hothers; discriminate).
    unfold field_update. now rewrite HF.
Qed.

(** C10.  A command without autotune request, for an element in range, in
    which some of the letters A, C, F, P, R, H are present but none of them
    has a value, takes the field-update path and returns: the Model Store is
    as it was and nothing at all is added to the trace, so no report is
    printed. *)
Theorem M306_fields_without_values cfg parser st m :
  extruder_index cfg parser st < EXTRUDERS cfg ->
  autotune_requested cfg parser = false ->
  temp_hotend st !! Z.to_nat (extruder_index cfg parser st) = Some m ->
  seen_any parser "ACFPRH" = true ->
  (forall c, In c (list_ascii_of_string "ACFPRH") -> has_val parser c = false) ->
  exists st',
    M306 cfg parser st = Some (tt, st') /\
    temp_hotend st' = temp_hotend st /\
    trace st' = trace st /\
    active_extruder st' = active_extruder st.
Proof.
  intros Hrange Hreq Hm Hseen Hnone.
  destruct (M306_update_run cfg parser st m Hrange Hreq Hseen Hm)
    as (st' & Hrun & Hstore & Htrace & Hactive).
  exists st'. split; [exact Hrun|]. split; [|auto].
  rewrite Hstore. apply list_insert_id. rewrite Hm. f_equal.
  unfold apply_fields.
  rewrite (field_update_no_value parser "P") by (apply Hnone; cbn; auto 10).
  rewrite (field_update_no_value parser "C") by (apply Hnone; cbn; auto 10).
  rewrite (field_update_no_value parser "R") by (apply Hnone; cbn; auto 10).
  rewrite (field_update_no_value parser "A") by (apply Hnone; cbn; auto 10).
  rewrite (field_update_no_value parser "H") by (apply Hnone; cbn; auto 10).
  destruct (MPC_INCLUDE_FAN cfg); [|reflexivity].
  symmetry. apply field_update_no_value. apply Hnone; cbn; auto 10.
Qed.


(** ** Beyond the claims: the report path *)

Lemma M306_report_path cfg parser st :
  extruder_index cfg parser st < EXTRUDERS cfg ->
  autotune_requested cfg parser = false ->
  seen_any parser "ACFPRH" = false ->
  M306 cfg parser st = M306_report cfg true (after_E cfg parser st).
Proof.
  intros Hrange Hreq Hseen.
  unfold M306. rewrite M306_enter. cbv zeta. fold (extruder_index cfg parser st).
  rewrite (in_range_geb _ _ _ Hrange).
  unfold autotune_requested in Hreq. now rewrite Hreq, Hseen.
Qed.

(** X1.  A command for an element in range that carries neither an honoured
    autotune request nor any of the letters A, C, F, P, R, H prints the
    settings report, always in replay mode: the Model Store and the active
    extruder are as they were, and the trace grows by the heading, the host
    notice on a CAN host, one batch of calls per heating element, each opened
    by the echo-start call for replay, and the bus message on a toolhead. *)
Theorem M306_bare_command_reports cfg parser st :
  extruder_index cfg parser st < EXTRUDERS cfg ->
  autotune_requested cfg parser = false ->
  seen_any parser "ACFPRH" = false ->
  MARLIN_SMALL_BUILD cfg = false ->
  HOTENDS cfg = length (temp_hotend st) ->
  (CAN_TOOLHEAD cfg = true -> temp_hotend st <> []) ->
  exists st',
    M306 cfg parser st = Some (tt, st') /\
    temp_hotend st' = temp_hotend st /\
    active_extruder st' = active_extruder st /\
    trace st'
    = trace st
      ++ Heading true "Model predictive control"
         :: host_heading cfg true
      ++ concat (imap (fun e mpc => EchoStart true :: element_echoes cfg e mpc)
                      (temp_hotend st))
      ++ can_report cfg true (temp_hotend st).
Proof.
  intros Hrange Hreq Hseen Hsmall Hlen Hhead.
  rewrite M306_report_path by assumption.
  rewrite M306_report_run; autorewrite with frame; try assumption.
  - eexists. split; [reflexivity|].
    cbn [temp_hotend active_extruder trace with_trace].
    autorewrite with frame. auto.
  - rewrite andb_true_r. exact Hhead.
Qed.

(** X2.  In a build with [MARLIN_SMALL_BUILD] nothing M306 does ends in a
    report: for an element in range, a command without coefficient letters
    prints nothing at all unless it requests an autotune, a host prints its
    forwarding notice only, and a toolhead that has run the autotune clears
    the status and returns without sending the result to its host. *)
Theorem M306_small_build_never_reports cfg parser st :
  MARLIN_SMALL_BUILD cfg = true ->
  extruder_index cfg parser st < EXTRUDERS cfg ->
  autotune_requested cfg parser = true \/ seen_any parser "ACFPRH" = false ->
  exists st',
    M306 cfg parser st = Some (tt, st') /\
    trace st'
    = trace st
      ++ (if autotune_requested cfg parser
          then if CAN_HOST cfg
               then [forwarding_notice (MPC_HEATER_POWER cfg)]
               else [LcdMessage MSG_MPC_AUTOTUNE;
                     Autotune (extruder_index cfg parser st)
                              (strategy_of_selector (strategy_selector parser));
                     UiResetStatus]
          else []).
Proof.
  intros Hsmall Hrange Hcase.
  destruct (autotune_requested cfg parser) eqn:Hreq.
  - exists (dispatched cfg parser st). split.
    + apply M306_dispatch_run; try assumption.
      intros _ _ Hno. congruence.
    + unfold dispatched, report_events. rewrite Hsmall.
      destruct (CAN_HOST cfg); [reflexivity|].
      destruct (CAN_TOOLHEAD cfg); cbn [tuned trace with_trace];
        now rewrite ?app_nil_r.
  - destruct Hcase as [Hcase|Hseen]; [discriminate|].
    rewrite M306_report_path by assumption.
    rewrite M306_report_small by assumption.
    eexists. split; [reflexivity|]. now autorewrite with frame; rewrite app_nil_r.
Qed.

(** X14.  Outside replay mode the report is the same on every unit: the
    heading and one batch of calls per heating element, each opened by the
    echo-start call; neither the host notice nor the bus transmission
    happens, whatever the CAN role, and an empty store is no obstacle. *)
Theorem M306_report_plain_dump cfg st :
  MARLIN_SMALL_BUILD cfg = false ->
  HOTENDS cfg = length (temp_hotend st) ->
  exists st',
    M306_report cfg false st = Some (tt, st') /\
    temp_hotend st' = temp_hotend st /\
    trace st'
    = trace st
      ++ Heading false "Model predictive control"
         :: concat (imap (fun e mpc => EchoStart false :: element_echoes cfg e mpc)
                         (temp_hotend st)).
Proof.
  intros Hsmall Hlen.
  rewrite M306_report_run; try assumption.
  - eexists. split; [reflexivity|]. split; [reflexivity|].
    cbn [trace with_trace]. unfold host_heading, can_report.
    rewrite !andb_false_r. cbn [app]. now rewrite app_nil_r.
  - rewrite andb_false_r. discriminate.
Qed.


(** ** Beyond the claims: the field-update path *)

Lemma MPC_t_ext (a b : MPC_t) :
  heater_power a = heater_power b ->
  block_heat_capacity a = block_heat_capacity b ->
  sensor_responsiveness a = sensor_responsiveness b ->
  ambient_xfer_coeff_fan0 a = ambient_xfer_coeff_fan0 b ->
  fan_delta a = fan_delta b ->
  filament_heat_capacity_permm a = filament_heat_capacity_permm b ->
  a = b.
Proof. destruct a, b; cbn; intros; subst; reflexivity. Qed.

(** Every line of the editor writes its own field and no other. *)
Lemma apply_fields_proj cfg parser m :
  let m' := apply_fields cfg parser m in
  heater_power m'
  = match parser "P"%char with
    | Some (Some v) => as_float v | _ => heater_power m end /\
  block_heat_capacity m'
  = match parser "C"%char with
    | Some (Some v) => as_float v | _ => block_heat_capacity m end /\
  sensor_responsiveness m'
  = match parser "R"%char with
    | Some (Some v) => as_float v | _ => sensor_responsiveness m end /\
  ambient_xfer_coeff_fan0 m'
  = match parser "A"%char with
    | Some (Some v) => as_float v | _ => ambient_xfer_coeff_fan0 m end /\
  fan_delta m'
  = (if MPC_INCLUDE_FAN cfg
     then match parser "F"%char with
          | Some (Some v) => as_float v | _ => fan_delta m end
     else fan_delta m) /\
  filament_heat_capacity_permm m'
  = match parser "H"%char with
    | Some (Some v) => as_float v | _ => filament_heat_capacity_permm m end.
Proof.
  cbv zeta. unfold apply_fields.
  repeat split.
  - rewrite (field_update_preserves heater_power) by reflexivity.
    destruct (MPC_INCLUDE_FAN cfg);
      rewrite ?(field_update_preserves heater_power _ "F") by reflexivity;
      rewrite (field_update_preserves heater_power _ "A") by reflexivity;
      rewrite (field_update_preserves heater_power _ "R") by reflexivity;
      rewrite (field_update_preserves heater_power _ "C") by reflexivity;
      unfold field_update; now destruct (parser "P"%char) as [[v|]|].
  - rewrite (field_update_preserves block_heat_capacity) by reflexivity.
    destruct (MPC_INCLUDE_FAN cfg);
      rewrite ?(field_update_preserves block_heat_capacity _ "F") by reflexivity;
      rewrite (field_update_preserves block_heat_capacity _ "A") by reflexivity;
      rewrite (field_update_preserves block_heat_capacity _ "R") by reflexivity;
      unfold field_update at 1; destruct (parser "C"%char) as [[v|]|];
      try reflexivity; now apply field_update_preserves.
  - rewrite (field_update_preserves sensor_responsiveness) by reflexivity.
    destruct (MPC_INCLUDE_FAN cfg);
      rewrite ?(field_update_preserves sensor_responsiveness _ "F") by reflexivity;
      rewrite (field_update_preserves sensor_responsiveness _ "A") by reflexivity;
      unfold field_update at 1; destruct (parser "R"%char) as [[v|]|];
      try reflexivity;
      rewrite (field_update_preserves sensor_responsiveness _ "C") by reflexivity;
      now apply field_update_preserves.
  - rewrite (field_update_preserves ambient_xfer_coeff_fan0) by reflexivity.
    destruct (MPC_INCLUDE_FAN cfg);
      rewrite ?(field_update_preserves ambient_xfer_coeff_fan0 _ "F") by reflexivity;
      unfold field_update at 1; destruct (parser "A"%char) as [[v|]|];
      try reflexivity;
      rewrite (field_update_preserves ambient_xfer_coeff_fan0 _ "R") by reflexivity;
      rewrite (field_update_preserves ambient_xfer_coeff_fan0 _ "C") by reflexivity;
      now apply field_update_preserves.
  - rewrite (field_update_preserves fan_delta) by reflexivity.
    destruct (MPC_INCLUDE_FAN cfg);
      [unfold field_update at 1; destruct (parser "F"%char) as [[v|]|];
       try reflexivity|];
      rewrite (field_update_preserves fan_delta _ "A") by reflexivity;
      rewrite (field_update_preserves fan_delta _ "R") by reflexivity;
      rewrite (field_update_preserves fan_delta _ "C") by reflexivity;
      now apply field_update_preserves.
  - unfold field_update at 1. destruct (parser "H"%char) as [[v|]|];
      try reflexivity;
      (destruct (MPC_INCLUDE_FAN cfg);
       rewrite ?(field_update_preserves filament_heat_capacity_permm _ "F") by reflexivity;
       rewrite (field_update_preserves filament_heat_capacity_permm _ "A") by reflexivity;
       rewrite (field_update_preserves filament_heat_capacity_permm _ "R") by reflexivity;
       rewrite (field_update_preserves filament_heat_capacity_permm _ "C") by reflexivity;
       now apply field_update_preserves).
Qed.

Lemma in_range_lookup cfg parser st :
  extruder_index cfg parser st < EXTRUDERS cfg ->
  EXTRUDERS cfg <= Z.of_nat (length (temp_hotend st)) ->
  exists m, temp_hotend st !! Z.to_nat (extruder_index cfg parser st) = Some m.
Proof.
  intros Hrange Hstore.
  pose proof (extruder_index_range cfg parser st) as He.
  apply lookup_lt_is_Some_2. lia.
Qed.

(** X3.  The range check is enough to keep the field-update path inside the
    Model Store, and the path edits one record and prints nothing.  When the
    store has at least [EXTRUDERS] records, a command for an element in range,
    without honoured autotune request and with one of A, C, F, P, R, H
    present, returns; the number of records and every record but the
    targeted one are as before; and in the targeted record each of the five
    plain fields holds the value of its letter if the letter carries one and
    its old value otherwise. *)
Theorem M306_update_fields cfg parser st :
  extruder_index cfg parser st < EXTRUDERS cfg ->
  EXTRUDERS cfg <= Z.of_nat (length (temp_hotend st)) ->
  autotune_requested cfg parser = false ->
  seen_any parser "ACFPRH" = true ->
  exists st' m m',
    M306 cfg parser st = Some (tt, st') /\
    temp_hotend st !! Z.to_nat (extruder_index cfg parser st) = Some m /\
    temp_hotend st' !! Z.to_nat (extruder_index cfg parser st) = Some m' /\
    length (temp_hotend st') = length (temp_hotend st) /\
    (forall j, j <> Z.to_nat (extruder_index cfg parser st) ->
               temp_hotend st' !! j = temp_hotend st !! j) /\
    trace st' = trace st /\
    heater_power m'
    = match parser "P"%char with
      | Some (Some v) => as_float v | _ => heater_power m end /\
    block_heat_capacity m'
    = match parser "C"%char with
      | Some (Some v) => as_float v | _ => block_heat_capacity m end /\
    sensor_responsiveness m'
    = match parser "R"%char with
      | Some (Some v) => as_float v | _ => sensor_responsiveness m end /\
    ambient_xfer_coeff_fan0 m'
    = match parser "A"%char with
      | Some (Some v) => as_float v | _ => ambient_xfer_coeff_fan0 m end /\
    filament_heat_capacity_permm m'
    = match parser "H"%char with
      | Some (Some v) => as_float v | _ => filament_heat_capacity_permm m end.
Proof.
  intros Hrange Hstore Hreq Hseen.
  destruct (in_range_lookup cfg parser st Hrange Hstore) as [m Hm].
  destruct (M306_update_run cfg parser st m Hrange Hreq Hseen Hm)
    as (st' & Hrun & Hnew & Htrace & _).
  exists st', m, (apply_fields cfg parser m).
  split; [exact Hrun|]. split; [exact Hm|].
  split. { rewrite Hnew. apply list_lookup_insert_eq. eapply lookup_lt_Some, Hm. }
  split. { rewrite Hnew. apply length_insert. }
  split. { intros j Hj. rewrite Hnew. apply list_lookup_insert_ne. congruence. }
  split; [exact Htrace|].
  destruct (apply_fields_proj cfg parser m) as (HP & HC & HR & HA & _ & HH).
  auto.
Qed.


(** X4.  In a build without the fan term the letter F still selects the
    field-update path, where nothing reads it.  A command for an element in
    range, without honoured autotune request, in which F is present -- with or
    without a value -- and none of A, C, P, R, H carries a value, returns with
    the Model Store unchanged and nothing printed: no edit, no report, no
    error. *)
Theorem M306_fan_letter_without_fan_term cfg parser st :
  MPC_INCLUDE_FAN cfg = false ->
  extruder_index cfg parser st < EXTRUDERS cfg ->
  EXTRUDERS cfg <= Z.of_nat (length (temp_hotend st)) ->
  autotune_requested cfg parser = false ->
  seen_test parser "F" = true ->
  (forall c, In c (list_ascii_of_string "ACPRH") -> has_val parser c = false) ->
  exists st',
    M306 cfg parser st = Some (tt, st') /\
    temp_hotend st' = temp_hotend st /\
    trace st' = trace st.
Proof.
  intros Hfan Hrange Hstore Hreq HF Hnone.
  destruct (in_range_lookup cfg parser st Hrange Hstore) as [m Hm].
  assert (Hseen : seen_any parser "ACFPRH" = true)
    by (apply (seen_any_field parser "F"); [cbn; auto|exact HF]).
  destruct (M306_update_run cfg parser st m Hrange Hreq Hseen Hm)
    as (st' & Hrun & Hnew & Htrace & _).
  exists st'. split; [exact Hrun|]. split; [|exact Htrace].
  rewrite Hnew. apply list_insert_id. rewrite Hm. f_equal.
  unfold apply_fields. rewrite Hfan.
  rewrite (field_update_no_value parser "P") by (apply Hnone; cbn; auto 10).
  rewrite (field_update_no_value parser "C") by (apply Hnone; cbn; auto 10).
  rewrite (field_update_no_value parser "R") by (apply Hnone; cbn; auto 10).
  rewrite (field_update_no_value parser "A") by (apply Hnone; cbn; auto 10).
  rewrite (field_update_no_value parser "H") by (apply Hnone; cbn; auto 10).
  reflexivity.
Qed.

(** X5.  On a multi-extruder build a command whose E word is missing, or
    present without a value, works on the active extruder: when that one is
    in range, the field-update path edits its record and no other. *)
Theorem M306_defaults_to_active_extruder cfg parser st :
  HAS_MULTI_EXTRUDER cfg = true ->
  has_val parser "E" = false ->
  0 <= active_extruder st < EXTRUDERS cfg ->
  EXTRUDERS cfg <= Z.of_nat (length (temp_hotend st)) ->
  EXTRUDERS cfg <= 256 ->
  autotune_requested cfg parser = false ->
  seen_any parser "ACFPRH" = true ->
  exists st' m,
    M306 cfg parser st = Some (tt, st') /\
    temp_hotend st !! Z.to_nat (active_extruder st) = Some m /\
    temp_hotend st'
    = <[Z.to_nat (active_extruder st) := apply_fields cfg parser m]> (temp_hotend st) /\
    trace st' = trace st.
Proof.
  intros Hmulti HE Hactive Hstore Hbyte Hreq Hseen.
  assert (Hindex : extruder_index cfg parser st = active_extruder st).
  { unfold extruder_index, raw_index, long_or. rewrite Hmulti.
    unfold has_val in HE.
    destruct (parser "E"%char) as [[v|]|]; try discriminate;
      unfold uint8; apply Z.mod_small; lia. }
  assert (Hrange : extruder_index cfg parser st < EXTRUDERS cfg) by lia.
  destruct (in_range_lookup cfg parser st Hrange Hstore) as [m Hm].
  destruct (M306_update_run cfg parser st m Hrange Hreq Hseen Hm)
    as (st' & Hrun & Hnew & Htrace & _).
  rewrite Hindex in Hm, Hnew.
  exists st', m. auto.
Qed.

(** X15.  The range check sees the E value only after it has been narrowed
    to [uint8_t].  On a multi-extruder build, when the E word reads as the
    integer [n] and [n mod 256] is in range, the field-update path raises no
    range error and edits the record of element [n mod 256] -- also when [n]
    itself is negative or far beyond the number of extruders. *)
Theorem M306_index_is_low_byte cfg parser st v :
  HAS_MULTI_EXTRUDER cfg = true ->
  parser "E"%char = Some (Some v) ->
  as_long v mod 256 < EXTRUDERS cfg ->
  EXTRUDERS cfg <= Z.of_nat (length (temp_hotend st)) ->
  autotune_requested cfg parser = false ->
  seen_any parser "ACFPRH" = true ->
  exists st' m,
    M306 cfg parser st = Some (tt, st') /\
    temp_hotend st !! Z.to_nat (as_long v mod 256) = Some m /\
    temp_hotend st'
    = <[Z.to_nat (as_long v mod 256) := apply_fields cfg parser m]> (temp_hotend st) /\
    trace st' = trace st.
Proof.
  intros Hmulti HE Hlow Hstore Hreq Hseen.
  assert (Hindex : extruder_index cfg parser st = as_long v mod 256).
  { unfold extruder_index, raw_index, long_or. now rewrite Hmulti, HE. }
  assert (Hrange : extruder_index cfg parser st < EXTRUDERS cfg) by lia.
  destruct (in_range_lookup cfg parser st Hrange Hstore) as [m Hm].
  destruct (M306_update_run cfg parser st m Hrange Hreq Hseen Hm)
    as (st' & Hrun & Hnew & Htrace & _).
  rewrite Hindex in Hm, Hnew.
  exists st', m. auto.
Qed.


Lemma apply_fields_idempotent cfg parser m :
  apply_fields cfg parser (apply_fields cfg parser m) = apply_fields cfg parser m.
Proof.
  destruct (apply_fields_proj cfg parser m) as (HP & HC & HR & HA & HF & HH).
  destruct (apply_fields_proj cfg parser (apply_fields cfg parser m))
    as (HP' & HC' & HR' & HA' & HF' & HH').
  cbv zeta in *.
  apply MPC_t_ext.
  - rewrite HP', HP. now destruct (parser "P"%char) as [[v|]|].
  - rewrite HC', HC. now destruct (parser "C"%char) as [[v|]|].
  - rewrite HR', HR. now destruct (parser "R"%char) as [[v|]|].
  - rewrite HA', HA. now destruct (parser "A"%char) as [[v|]|].
  - rewrite HF', HF. destruct (MPC_INCLUDE_FAN cfg); [|reflexivity].
    now destruct (parser "F"%char) as [[v|]|].
  - rewrite HH', HH. now destruct (parser "H"%char) as [[v|]|].
Qed.


(** X6.  Sending the same field-update command twice is the same as sending
    it once: the second run returns with the Model Store and the trace as the
    first run left them. *)
Theorem M306_update_twice cfg parser st :
  extruder_index cfg parser st < EXTRUDERS cfg ->
  EXTRUDERS cfg <= Z.of_nat (length (temp_hotend st)) ->
  autotune_requested cfg parser = false ->
  seen_any parser "ACFPRH" = true ->
  exists st1 st2,
    M306 cfg parser st = Some (tt, st1) /\
    M306 cfg parser st1 = Some (tt, st2) /\
    temp_hotend st2 = temp_hotend st1 /\
    trace st2 = trace st1.
Proof.
  intros Hrange Hstore Hreq Hseen.
  destruct (in_range_lookup cfg parser st Hrange Hstore) as [m Hm].
  destruct (M306_update_run cfg parser st m Hrange Hreq Hseen Hm)
    as (st1 & Hrun1 & Hnew1 & Htrace1 & Hactive1).
  assert (Hindex : extruder_index cfg parser st1 = extruder_index cfg parser st).
  { unfold extruder_index, raw_index. now rewrite Hactive1. }
  assert (Hm1 : temp_hotend st1 !! Z.to_nat (extruder_index cfg parser st1)
                = Some (apply_fields cfg parser m)).
  { rewrite Hindex, Hnew1. apply list_lookup_insert_eq. eapply lookup_lt_Some, Hm. }
  assert (Hrange1 : extruder_index cfg parser st1 < EXTRUDERS cfg) by (now rewrite Hindex).
  destruct (M306_update_run cfg parser st1 _ Hrange1 Hreq Hseen Hm1)
    as (st2 & Hrun2 & Hnew2 & Htrace2 & _).
  exists st1, st2. split; [exact Hrun1|]. split; [exact Hrun2|].
  split; [|exact Htrace2].
  rewrite Hnew2, apply_fields_idempotent. apply list_insert_id. exact Hm1.
Qed.


(** ** Beyond the claims: words the handler does not read *)

(** X7.  In a build without [MPC_AUTOTUNE] the letter T means nothing: the
    handler does on any command exactly what it does on the same command
    with T struck out, so [M306 T] is a report request and [M306 T P50] an
    edit. *)
Theorem M306_T_ignored_without_autotune cfg parser st :
  MPC_AUTOTUNE cfg = false ->
  M306 cfg parser st = M306 cfg (without_arg "T" parser) st.
Proof.
  intros Hauto. unfold M306. rewrite !M306_enter. cbv zeta.
  change (raw_index cfg (without_arg "T" parser) st) with (raw_index cfg parser st).
  change (after_E cfg (without_arg "T" parser) st) with (after_E cfg parser st).
  destruct (uint8 (raw_index cfg parser st) >=? EXTRUDERS cfg); [reflexivity|].
  rewrite Hauto. cbn [andb].
  change (seen_any (without_arg "T" parser) "ACFPRH") with (seen_any parser "ACFPRH").
  destruct (seen_any parser "ACFPRH"); reflexivity.
Qed.

(** X8.  The strategy selector S is read on one path only, the local
    autotune.  On a CAN host, and on any unit when the command carries no
    honoured autotune request, the handler does exactly what it does on the
    same command with S struck out. *)
Theorem M306_S_read_only_by_local_autotune cfg parser st :
  CAN_HOST cfg = true \/ autotune_requested cfg parser = false ->
  M306 cfg parser st = M306 cfg (without_arg "S" parser) st.
Proof.
  intros Hcase. unfold M306. rewrite !M306_enter. cbv zeta.
  change (raw_index cfg (without_arg "S" parser) st) with (raw_index cfg parser st).
  change (after_E cfg (without_arg "S" parser) st) with (after_E cfg parser st).
  destruct (uint8 (raw_index cfg parser st) >=? EXTRUDERS cfg); [reflexivity|].
  change (seen_test (without_arg "S" parser) "T") with (seen_test parser "T").
  change (seen_any (without_arg "S" parser) "ACFPRH") with (seen_any parser "ACFPRH").
  fold (autotune_requested cfg parser).
  destruct (autotune_requested cfg parser) eqn:Hreq.
  - destruct Hcase as [Hhost|Hno]; [|discriminate]. now rewrite Hhost.
  - destruct (seen_any parser "ACFPRH"); reflexivity.
Qed.

(** X9.  On a build without [HAS_MULTI_EXTRUDER] the handler never reads
    the E word nor the active extruder: it works on element 0 and does
    exactly what it does on the same command with E struck out, so no E value
    can raise the range error there. *)
Theorem M306_E_ignored_on_single_extruder cfg parser st :
  HAS_MULTI_EXTRUDER cfg = false ->
  extruder_index cfg parser st = 0 /\
  M306 cfg parser st = M306 cfg (without_arg "E" parser) st.
Proof.
  intros Hmulti. split.
  - unfold extruder_index, raw_index. now rewrite Hmulti.
  - unfold M306. rewrite !M306_enter. cbv zeta.
    unfold raw_index, after_E. rewrite Hmulti.
    destruct (uint8 0 >=? EXTRUDERS cfg); [reflexivity|].
    change (seen_test (without_arg "E" parser) "T") with (seen_test parser "T").
    change (seen_any (without_arg "E" parser) "ACFPRH") with (seen_any parser "ACFPRH").
    destruct (MPC_AUTOTUNE cfg && seen_test parser "T").
    + destruct (CAN_HOST cfg); reflexivity.
    + destruct (seen_any parser "ACFPRH"); reflexivity.
Qed.


(** ** Beyond the claims: what the report leaves alone *)

Lemma framed_ret {A} (a : A) : framed (ret a).
Proof.
  intros st a' st' H. injection H as <- <-.
  repeat split; try reflexivity. exists []. now rewrite app_nil_r.
Qed.

Lemma framed_emit ev : framed (emit ev).
Proof.
  intros st a st' H. rewrite emit_run in H. injection H as <- <-.
  repeat split; try reflexivity. now exists [ev].
Qed.

Lemma framed_bind {A B} (m : M A) (k : A -> M B) :
  framed m -> (forall a, framed (k a)) -> framed (bind m k).
Proof.
  intros Hm Hk st b st' H. unfold bind in H.
  destruct (m st) as [[a st1]|] eqn:E1; [|discriminate].
  destruct (Hm _ _ _ E1) as (Hs1 & Ha1 & Hv1 & evs1 & Ht1).
  destruct (Hk a _ _ _ H) as (Hs2 & Ha2 & Hv2 & evs2 & Ht2).
  repeat split; try congruence.
  exists (evs1 ++ evs2). now rewrite Ht2, Ht1, app_assoc.
Qed.

Lemma framed_when c (stmt : M unit) : framed stmt -> framed (when c stmt).
Proof. intros H. destruct c; cbn; [exact H | apply framed_ret]. Qed.

Lemma framed_mpc_ref e : framed (mpc_ref e).
Proof.
  intros st a st' H. unfold mpc_ref in H.
  destruct (temp_hotend st !! e); [|discriminate]. injection H as <- <-.
  repeat split; try reflexivity. exists []. now rewrite app_nil_r.
Qed.

Lemma framed_mpc_read r : framed (mpc_read r).
Proof.
  intros st a st' H. unfold mpc_read in H.
  destruct (temp_hotend st !! r); [|discriminate]. injection H as <- <-.
  repeat split; try reflexivity. exists []. now rewrite app_nil_r.
Qed.

Lemma framed_for_each es (body : nat -> M unit) :
  (forall e, framed (body e)) -> framed (for_each es body).
Proof.
  intros Hbody. induction es as [|e es IH]; cbn [for_each].
  - apply framed_ret.
  - apply framed_bind; [apply Hbody | intros _; exact IH].
Qed.

Create HintDb framed discriminated.
#[local] Hint Resolve framed_ret framed_emit framed_when framed_mpc_ref
  framed_mpc_read framed_for_each : framed.

(** The report only prints and sends: it writes nothing, wherever it is
    called from and whether or not the store is as large as it expects. *)
Lemma M306_report_framed cfg forReplay : framed (M306_report cfg forReplay).
Proof.
  unfold M306_report, HOTEND_LOOP, report_heading, report_echo_start,
    SERIAL_ECHOPGM, SERIAL_ECHOLNPGM, CAN_toolhead_send_string.
  destruct (MARLIN_SMALL_BUILD cfg); [apply framed_ret|].
  repeat first
    [ apply framed_bind; [|intros ?]
    | apply framed_for_each; intros ?
    | apply framed_when
    | solve [auto with framed] ].
Qed.

Lemma after_E_same_store_and_trace cfg parser st :
  temp_hotend (after_E cfg parser st) = temp_hotend st /\
  active_extruder (after_E cfg parser st) = active_extruder st /\
  trace (after_E cfg parser st) = trace st.
Proof. now autorewrite with frame. Qed.

(** X13.  Apart from a local autotune, whose result is the procedure's
    business, no run of M306 that returns has touched a record other than
    the targeted one, changed the number of records or the active extruder,
    or removed anything from the trace -- whatever the command, the build
    and the size of the store. *)
Theorem M306_keeps_the_rest cfg parser st st' :
  M306 cfg parser st = Some (tt, st') ->
  CAN_HOST cfg = true \/ autotune_requested cfg parser = false ->
  length (temp_hotend st') = length (temp_hotend st) /\
  active_extruder st' = active_extruder st /\
  (exists evs, trace st' = trace st ++ evs) /\
  (forall j, j <> Z.to_nat (extruder_index cfg parser st) ->
             temp_hotend st' !! j = temp_hotend st !! j).
Proof.
  intros Hrun Hcase.
  destruct (after_E_same_store_and_trace cfg parser st) as (HsE & HaE & HtE).
  destruct (extruder_index cfg parser st >=? EXTRUDERS cfg) eqn:Hge.
  { unfold M306 in Hrun. rewrite M306_enter in Hrun. cbv zeta in Hrun.
    fold (extruder_index cfg parser st) in Hrun. rewrite Hge in Hrun.
    unfold SERIAL_ECHOLNPGM in Hrun. rewrite emit_run in Hrun.
    injection Hrun as <-. cbn [temp_hotend active_extruder trace with_trace].
    rewrite HsE, HaE, HtE. repeat split; eauto. }
  assert (Hrange : extruder_index cfg parser st < EXTRUDERS cfg).
  { rewrite Z.geb_leb in Hge. apply Z.leb_gt in Hge. lia. }
  destruct (autotune_requested cfg parser) eqn:Hreq.
  { destruct Hcase as [Hhost|Hno]; [|discriminate].
    rewrite M306_dispatch_run in Hrun by (auto; congruence).
    injection Hrun as <-. unfold dispatched. rewrite Hhost.
    cbn [temp_hotend active_extruder trace with_trace].
    rewrite HsE, HaE. repeat split; eauto. }
  destruct (seen_any parser "ACFPRH") eqn:Hseen.
  - destruct (temp_hotend st !! Z.to_nat (extruder_index cfg parser st))
      as [m|] eqn:Hm.
    + destruct (M306_update_run cfg parser st m Hrange Hreq Hseen Hm)
        as (st1 & Hrun1 & Hnew & Htrace & Hactive).
      rewrite Hrun1 in Hrun. injection Hrun as <-.
      rewrite Hnew, length_insert. repeat split; auto.
      * exists []. now rewrite app_nil_r.
      * intros j Hj. apply list_lookup_insert_ne. congruence.
    + exfalso. unfold M306 in Hrun. rewrite M306_enter in Hrun. cbv zeta in Hrun.
      fold (extruder_index cfg parser st) in Hrun. rewrite Hge in Hrun.
      unfold autotune_requested in Hreq. rewrite Hreq, Hseen in Hrun.
      unfold bind at 1, mpc_ref in Hrun. rewrite HsE, Hm in Hrun. discriminate.
  - rewrite M306_report_path in Hrun by assumption.
    destruct (M306_report_framed cfg true _ _ _ Hrun) as (Hs & Ha & _ & evs & Ht).
    rewrite Hs, Ha, Ht, HsE, HaE, HtE. repeat split; eauto.
Qed.


(** ** Beyond the claims: what reaches the console and the host *)


(** X10.  A toolhead that has run the autotune reports on its console and
    then sends its host one line, and that line is always the record of
    element 0 as the autotune procedure left the store -- whichever element
    the command asked to tune. *)
Theorem M306_toolhead_sends_element_0 cfg parser st mpc0 others :
  MPC_AUTOTUNE cfg = true ->
  CAN_HOST cfg = false ->
  CAN_TOOLHEAD cfg = true ->
  MARLIN_SMALL_BUILD cfg = false ->
  seen_test parser "T" = true ->
  extruder_index cfg parser st < EXTRUDERS cfg ->
  autotune_result (extruder_index cfg parser st)
    (strategy_of_selector (strategy_selector parser)) (temp_hotend st)
  = mpc0 :: others ->
  HOTENDS cfg = length (mpc0 :: others) ->
  exists st',
    M306 cfg parser st = Some (tt, st') /\
    temp_hotend st' = mpc0 :: others /\
    trace st'
    = trace st
      ++ [LcdMessage MSG_MPC_AUTOTUNE;
          Autotune (extruder_index cfg parser st)
                   (strategy_of_selector (strategy_selector parser));
          UiResetStatus]
      ++ Heading true "Model predictive control"
         :: concat (imap (fun e mpc => EchoStart true :: element_echoes cfg e mpc)
                         (mpc0 :: others))
      ++ [CanSend (truncate 100 (canonical_line cfg 0 mpc0))].
Proof.
  intros Hauto Hhost Htool Hsmall HT Hrange Htuned Hlen.
  assert (Hreq : autotune_requested cfg parser = true)
    by (unfold autotune_requested; now rewrite Hauto, HT).
  exists (dispatched cfg parser st). split.
  - apply M306_dispatch_run; try assumption.
    intros _ _ _. cbn [tuned temp_hotend with_trace with_temp_hotend].
    rewrite Htuned. split; [exact Hlen | discriminate].
  - unfold dispatched. rewrite Hhost, Htool.
    cbn [tuned temp_hotend trace with_trace with_temp_hotend].
    rewrite Htuned. split; [reflexivity|].
    unfold report_events, host_heading, can_report.
    rewrite Hsmall, Hhost, Htool. cbn [andb app].
    now rewrite <- app_assoc.
Qed.








End Externals.

(** ** Worked examples

    The theorems above at concrete builds, commands and stores, with the
    sample renderer and the sample autotune in place of the external ones. *)

Lemma M306_index_out_of_range_witness :
  extruder_index standalone cmd_E5 (boot [stock_mpc; stock_mpc]) >= EXTRUDERS standalone /\
  exists st',
    M306 sample_float_text sample_autotune standalone cmd_E5
      (boot [stock_mpc; stock_mpc]) = Some (tt, st') /\
    temp_hotend st' = [stock_mpc; stock_mpc] /\
    active_extruder st' = 0 /\
    trace st' = [range_error standalone].
Proof.
  split; [vm_compute; discriminate|].
  apply (M306_index_out_of_range sample_float_text sample_autotune standalone cmd_E5
           (boot [stock_mpc; stock_mpc])).
  vm_compute. discriminate.
Defined.

Lemma M306_autotune_precedence_witness :
  M306 sample_float_text sample_autotune toolhead cmd_T_P50 (boot [stock_mpc])
  = M306 sample_float_text sample_autotune toolhead (without_fields cmd_T_P50)
      (boot [stock_mpc]) /\
  M306 sample_float_text sample_autotune toolhead cmd_T_P50 (boot [stock_mpc])
  = Some (tt, dispatched sample_float_text sample_autotune toolhead
                (without_fields cmd_T_P50) (boot [stock_mpc])) /\
  temp_hotend (dispatched sample_float_text sample_autotune toolhead
                 (without_fields cmd_T_P50) (boot [stock_mpc]))
  = [tuned_mpc].
Proof.
  destruct (M306_autotune_precedence sample_float_text sample_autotune toolhead
              cmd_T_P50 (boot [stock_mpc]) eq_refl eq_refl) as [Hsame Hrun].
  split; [exact Hsame|].
  apply Hrun.
  - vm_compute. reflexivity.
  - intros _ _ _. split; [reflexivity | discriminate].
Defined.

Lemma M306_strategy_mapping_witness :
  exists st',
    M306 sample_float_text sample_autotune standalone cmd_E1_T_S1
      (boot [stock_mpc; stock_mpc]) = Some (tt, st') /\
    temp_hotend st' = [stock_mpc; tuned_mpc] /\
    trace st' = [LcdMessage MSG_MPC_AUTOTUNE; Autotune 1 FORCE_DIFFERENTIAL; UiResetStatus].
Proof.
  apply (M306_strategy_mapping sample_float_text sample_autotune standalone cmd_E1_T_S1
           (boot [stock_mpc; stock_mpc]) eq_refl eq_refl eq_refl).
  - vm_compute. reflexivity.
  - discriminate.
Defined.

Lemma M306_report_canonical_witness :
  exists st',
    M306_report sample_float_text standalone false (boot [tuned_mpc; stock_mpc])
    = Some (tt, st') /\
    temp_hotend st' = [tuned_mpc; stock_mpc] /\
    trace st'
    = [Heading false "Model predictive control";
       EchoStart false] ++ element_echoes standalone 0 tuned_mpc
      ++ [EchoStart false] ++ element_echoes standalone 1 stock_mpc /\
    forall e mpc,
      [tuned_mpc; stock_mpc] !! e = Some mpc ->
      events_text sample_float_text (element_echoes standalone e mpc)
      = ("  " ++ canonical_line sample_float_text standalone (Z.of_nat e) mpc ++ LF)%string.
Proof.
  apply (M306_report_canonical sample_float_text standalone false
           (boot [tuned_mpc; stock_mpc]) eq_refl eq_refl).
  discriminate.
Defined.

Lemma M306_fan_update_witness :
  exists st' m',
    M306 sample_float_text sample_autotune standalone cmd_E1_F
      (boot [stock_mpc; stock_mpc]) = Some (tt, st') /\
    temp_hotend st' = [stock_mpc; m'] /\
    trace st' = [] /\
    fanCoefficient m' = as_float (decimal 5 2) /\
    (has_val cmd_E1_F "A" = false ->
     ambient_xfer_coeff_fan0 m' = ambient_xfer_coeff_fan0 stock_mpc) /\
    ((forall c, c <> "F"%char -> has_val cmd_E1_F c = false) ->
     m' = applyFanAdjustment (as_float (decimal 5 2)) stock_mpc).
Proof.
  apply (M306_fan_update sample_float_text sample_autotune standalone cmd_E1_F
           (boot [stock_mpc; stock_mpc]) stock_mpc (decimal 5 2) eq_refl).
  - vm_compute. reflexivity.
  - reflexivity.
  - reflexivity.
  - reflexivity.
Defined.

Lemma M306_host_forwards_witness :
  exists st' notice,
    M306 sample_float_text sample_autotune host cmd_T_S7 (boot [tuned_mpc])
    = Some (tt, st') /\
    temp_hotend st' = [tuned_mpc] /\
    active_extruder st' = 0 /\
    trace st' = [EchoLn notice].
Proof.
  apply (M306_host_forwards sample_float_text sample_autotune host cmd_T_S7
           (boot [tuned_mpc]) eq_refl eq_refl eq_refl).
  vm_compute. reflexivity.
Defined.

Lemma M306_host_notice_power_witness :
  exists st',
    M306 sample_float_text sample_autotune host cmd_T_S7 (boot [tuned_mpc])
    = Some (tt, st') /\
    trace st' = [forwarding_notice (float_of_Z 40)] /\
    In (p_float_t (float_of_Z 40) 1) (echo_args (forwarding_notice (float_of_Z 40))).
Proof.
  apply (M306_host_notice_power sample_float_text sample_autotune host cmd_T_S7
           (boot []) eq_refl eq_refl eq_refl).
  vm_compute. reflexivity.
Defined.

Lemma M306_report_toolhead_witness :
  exists st' buffer,
    M306_report sample_float_text toolhead true (boot [tuned_mpc]) = Some (tt, st') /\
    temp_hotend st' = [tuned_mpc] /\
    trace st'
    = ([Heading true "Model predictive control"; EchoStart true]
       ++ element_echoes toolhead 0 tuned_mpc)
      ++ [CanSend buffer] /\
    buffer = truncate 100 (canonical_line sample_float_text toolhead 0 tuned_mpc) /\
    (String.length buffer <= 100)%nat /\
    ((String.length (canonical_line sample_float_text toolhead 0 tuned_mpc) <= 100)%nat ->
     buffer = canonical_line sample_float_text toolhead 0 tuned_mpc).
Proof.
  apply (M306_report_toolhead sample_float_text toolhead (boot [tuned_mpc])
           tuned_mpc [] eq_refl eq_refl eq_refl eq_refl).
Defined.

Lemma M306_fields_without_values_witness :
  exists st',
    M306 sample_float_text sample_autotune standalone cmd_P_C
      (boot [tuned_mpc; stock_mpc]) = Some (tt, st') /\
    temp_hotend st' = [tuned_mpc; stock_mpc] /\
    trace st' = [] /\
    active_extruder st' = 0.
Proof.
  apply (M306_fields_without_values sample_float_text sample_autotune standalone cmd_P_C
           (boot [tuned_mpc; stock_mpc]) tuned_mpc).
  - vm_compute. reflexivity.
  - reflexivity.
  - reflexivity.
  - reflexivity.
  - intros c Hc. cbn in Hc.
    destruct Hc as [<-|[<-|[<-|[<-|[<-|[<-|[]]]]]]]; reflexivity.
Defined.

(** C7 as stated fails.  On a host built with [MPC_HEATER_POWER] 40 the
    operator sets the heater power of element 0 to 50 W and then asks for an
    autotune: the record of the targeted element holds 50, the notice is the
    one for 40, and no console call of the run carries the 50 of the record,
    at any number of decimals. *)
Lemma M306_host_notice_not_from_store :
  M306 sample_float_text sample_autotune host
    (with_arg "P" (Some (number 50)) no_args) (boot [stock_mpc])
  = Some (tt, host_after_P50) /\
  temp_hotend host_after_P50
    !! Z.to_nat (extruder_index host cmd_T_S7 host_after_P50)
  = Some (set_heater_power (float_of_Z 50) stock_mpc) /\
  M306 sample_float_text sample_autotune host cmd_T_S7 host_after_P50
  = Some (tt, with_trace [forwarding_notice (float_of_Z 40)] host_after_P50) /\
  ~ (exists ev d,
       In ev [forwarding_notice (float_of_Z 40)] /\
       In (p_float_t (heater_power (set_heater_power (float_of_Z 50) stock_mpc)) d)
          (echo_args ev)).
Proof.
  split; [vm_compute; reflexivity|].
  split; [vm_compute; reflexivity|].
  split; [vm_compute; reflexivity|].
  intros (ev & d & [<-|[]] & Hin).
  cbn in Hin. destruct Hin as [H|[H|[H|[]]]]; discriminate H.
Qed.

(** The scenarios of section 8 of the spec. *)

(** "element 0, apply(0, {P:150.0, C:33.0, R:0.1, A:0.12, H:0.4}), then
    report for element 0 produces the line
    [... E0 P150.00 C33.00 R0.1000 A0.1200 H0.4000]". *)
Example scenario_apply_then_report :
  option_map (fun r => events_text sample_float_text (trace (snd r)))
    ((M306 sample_float_text sample_autotune plain cmd_scenario ;;
      M306_report sample_float_text plain false)%cmd (boot [stock_mpc]))
  = Some ("  M306 E0 P150.00 C33.00 R0.1000 A0.1200 H0.4000" ++ LF)%string.
Proof. vm_compute. reflexivity. Qed.

(** "dispatch(0, selector=1) in local-execution role invokes the procedure
    exactly once with strategy FORCE_DIFFERENTIAL and toggles the status
    indicator on entry and off on return". *)
Example scenario_dispatch_differential :
  option_map (fun r => trace (snd r))
    (M306 sample_float_text sample_autotune plain
       (with_arg "T" None (with_arg "S" (Some (number 1)) no_args))
       (boot [stock_mpc]))
  = Some [LcdMessage MSG_MPC_AUTOTUNE; Autotune 0 FORCE_DIFFERENTIAL; UiResetStatus].
Proof. vm_compute. reflexivity. Qed.

(** A toolhead sends its host the line it prints, without the indent. *)
Example scenario_toolhead_message :
  option_map (fun r => last (trace (snd r)))
    (M306 sample_float_text sample_autotune toolhead (with_arg "T" None no_args)
       (boot [stock_mpc]))
  = Some (Some (CanSend "M306 E0 P50.00 C33.00 R0.1000 A0.1200 F0.0500 H0.4000")).
Proof. vm_compute. reflexivity. Qed.

(** The element index is narrowed to [uint8_t] before it is checked: on a
    two-extruder printer [M306 E256 P50] edits element 0. *)
Example scenario_index_narrowed :
  extruder_index standalone cmd_E256_P50 (boot [stock_mpc; stock_mpc]) = 0 /\
  option_map (fun r => (temp_hotend (snd r), trace (snd r)))
    (M306 sample_float_text sample_autotune standalone cmd_E256_P50
       (boot [stock_mpc; stock_mpc]))
  = Some ([set_heater_power (float_of_Z 50) stock_mpc; stock_mpc], []).
Proof. split; vm_compute; reflexivity. Qed.

(** Without the fan term in the build, [F] still selects the field-update
    path, where nothing reads it: the command changes nothing and prints
    nothing. *)
Example scenario_fan_not_built :
  option_map (fun r => (temp_hotend (snd r), trace (snd r)))
    (M306 sample_float_text sample_autotune plain cmd_E1_F (boot [stock_mpc]))
  = Some ([stock_mpc], []).
Proof. vm_compute. reflexivity. Qed.

(** ** Worked examples beyond the claims *)

Lemma M306_bare_command_reports_witness :
  exists st',
    M306 sample_float_text sample_autotune host no_args (boot [tuned_mpc])
    = Some (tt, st') /\
    temp_hotend st' = [tuned_mpc] /\
    active_extruder st' = 0 /\
    trace st'
    = [Heading true "Model predictive control";
       EchoLn [PGM ">>> Host M306 MPC settings:"];
       EchoStart true] ++ element_echoes host 0 tuned_mpc.
Proof.
  apply (M306_bare_command_reports sample_float_text sample_autotune host no_args
           (boot [tuned_mpc])); try reflexivity.
  discriminate.
Defined.

Lemma M306_small_build_never_reports_witness :
  exists st',
    M306 sample_float_text sample_autotune small_toolhead cmd_T (boot [stock_mpc])
    = Some (tt, st') /\
    trace st' = [LcdMessage MSG_MPC_AUTOTUNE; Autotune 0 AUTO; UiResetStatus].
Proof.
  apply (M306_small_build_never_reports sample_float_text sample_autotune
           small_toolhead cmd_T (boot [stock_mpc]) eq_refl).
  - reflexivity.
  - left. reflexivity.
Defined.

Lemma M306_update_fields_witness :
  exists st' m m',
    M306 sample_float_text sample_autotune standalone cmd_P_C33
      (boot [stock_mpc; stock_mpc]) = Some (tt, st') /\
    [stock_mpc; stock_mpc] !! 0%nat = Some m /\
    temp_hotend st' !! 0%nat = Some m' /\
    length (temp_hotend st') = 2%nat /\
    (forall j, j <> 0%nat -> temp_hotend st' !! j = [stock_mpc; stock_mpc] !! j) /\
    trace st' = [] /\
    heater_power m' = heater_power m /\
    block_heat_capacity m' = float_of_Z 33 /\
    sensor_responsiveness m' = sensor_responsiveness m /\
    ambient_xfer_coeff_fan0 m' = ambient_xfer_coeff_fan0 m /\
    filament_heat_capacity_permm m' = filament_heat_capacity_permm m.
Proof.
  apply (M306_update_fields sample_float_text sample_autotune standalone cmd_P_C33
           (boot [stock_mpc; stock_mpc])).
  - reflexivity.
  - cbn. lia.
  - reflexivity.
  - reflexivity.
Defined.

Lemma M306_fan_letter_without_fan_term_witness :
  exists st',
    M306 sample_float_text sample_autotune plain cmd_F (boot [stock_mpc])
    = Some (tt, st') /\
    temp_hotend st' = [stock_mpc] /\
    trace st' = [].
Proof.
  apply (M306_fan_letter_without_fan_term sample_float_text sample_autotune plain cmd_F
           (boot [stock_mpc]) eq_refl).
  - reflexivity.
  - cbn. lia.
  - reflexivity.
  - reflexivity.
  - intros c Hc. cbn in Hc.
    destruct Hc as [<-|[<-|[<-|[<-|[<-|[]]]]]]; reflexivity.
Defined.

Lemma M306_defaults_to_active_extruder_witness :
  exists st' m,
    M306 sample_float_text sample_autotune standalone cmd_P50
      (boot_active 1 [stock_mpc; stock_mpc]) = Some (tt, st') /\
    [stock_mpc; stock_mpc] !! 1%nat = Some m /\
    temp_hotend st'
    = <[1%nat := apply_fields standalone cmd_P50 m]> [stock_mpc; stock_mpc] /\
    trace st' = [].
Proof.
  apply (M306_defaults_to_active_extruder sample_float_text sample_autotune standalone
           cmd_P50 (boot_active 1 [stock_mpc; stock_mpc]) eq_refl eq_refl).
  - cbn. lia.
  - cbn. lia.
  - cbn. lia.
  - reflexivity.
  - reflexivity.
Defined.

Lemma M306_index_is_low_byte_witness :
  exists st' m,
    M306 sample_float_text sample_autotune standalone cmd_E256_P50
      (boot [stock_mpc; stock_mpc]) = Some (tt, st') /\
    [stock_mpc; stock_mpc] !! 0%nat = Some m /\
    temp_hotend st'
    = <[0%nat := apply_fields standalone cmd_E256_P50 m]> [stock_mpc; stock_mpc] /\
    trace st' = [].
Proof.
  apply (M306_index_is_low_byte sample_float_text sample_autotune standalone
           cmd_E256_P50 (boot [stock_mpc; stock_mpc]) (number 256) eq_refl eq_refl).
  - reflexivity.
  - cbn. lia.
  - reflexivity.
  - reflexivity.
Defined.

Lemma M306_update_twice_witness :
  exists st1 st2,
    M306 sample_float_text sample_autotune standalone cmd_scenario
      (boot [stock_mpc; stock_mpc]) = Some (tt, st1) /\
    M306 sample_float_text sample_autotune standalone cmd_scenario st1
    = Some (tt, st2) /\
    temp_hotend st2 = temp_hotend st1 /\
    trace st2 = trace st1.
Proof.
  apply (M306_update_twice sample_float_text sample_autotune standalone cmd_scenario
           (boot [stock_mpc; stock_mpc])).
  - reflexivity.
  - cbn. lia.
  - reflexivity.
  - reflexivity.
Defined.

Lemma M306_T_ignored_without_autotune_witness :
  M306 sample_float_text sample_autotune no_autotune cmd_T_P50
    (boot [stock_mpc; stock_mpc])
  = M306 sample_float_text sample_autotune no_autotune (without_arg "T" cmd_T_P50)
      (boot [stock_mpc; stock_mpc]).
Proof.
  apply (M306_T_ignored_without_autotune sample_float_text sample_autotune no_autotune
           cmd_T_P50 (boot [stock_mpc; stock_mpc]) eq_refl).
Defined.

Lemma M306_S_read_only_by_local_autotune_witness :
  M306 sample_float_text sample_autotune host cmd_T_S7 (boot [stock_mpc])
  = M306 sample_float_text sample_autotune host (without_arg "S" cmd_T_S7)
      (boot [stock_mpc]).
Proof.
  apply (M306_S_read_only_by_local_autotune sample_float_text sample_autotune host
           cmd_T_S7 (boot [stock_mpc])).
  left. reflexivity.
Defined.

Lemma M306_E_ignored_on_single_extruder_witness :
  extruder_index plain cmd_E5 (boot [stock_mpc]) = 0 /\
  M306 sample_float_text sample_autotune plain cmd_E5 (boot [stock_mpc])
  = M306 sample_float_text sample_autotune plain (without_arg "E" cmd_E5)
      (boot [stock_mpc]).
Proof.
  apply (M306_E_ignored_on_single_extruder sample_float_text sample_autotune plain
           cmd_E5 (boot [stock_mpc]) eq_refl).
Defined.

Lemma M306_keeps_the_rest_witness :
  length (temp_hotend host_after_P50) = 1%nat /\
  active_extruder host_after_P50 = 0 /\
  (exists evs, trace host_after_P50 = [] ++ evs) /\
  (forall j, j <> 0%nat -> temp_hotend host_after_P50 !! j = [stock_mpc] !! j).
Proof.
  apply (M306_keeps_the_rest sample_float_text sample_autotune host cmd_P50
           (boot [stock_mpc]) host_after_P50).
  - vm_compute. reflexivity.
  - left. reflexivity.
Defined.

Lemma M306_toolhead_sends_element_0_witness :
  exists st',
    M306 sample_float_text sample_autotune twin_toolhead cmd_E1_T_S1
      (boot [stock_mpc; stock_mpc]) = Some (tt, st') /\
    temp_hotend st' = [stock_mpc; tuned_mpc] /\
    trace st'
    = [LcdMessage MSG_MPC_AUTOTUNE; Autotune 1 FORCE_DIFFERENTIAL; UiResetStatus]
      ++ Heading true "Model predictive control"
         :: concat (imap (fun e mpc => EchoStart true :: element_echoes twin_toolhead e mpc)
                         [stock_mpc; tuned_mpc])
      ++ [CanSend (truncate 100 (canonical_line sample_float_text twin_toolhead 0
                                   stock_mpc))].
Proof.
  apply (M306_toolhead_sends_element_0 sample_float_text sample_autotune twin_toolhead
           cmd_E1_T_S1 (boot [stock_mpc; stock_mpc]) stock_mpc [tuned_mpc]);
    reflexivity.
Defined.



Lemma M306_report_plain_dump_witness :
  exists st',
    M306_report sample_float_text toolhead false (boot [tuned_mpc]) = Some (tt, st') /\
    temp_hotend st' = [tuned_mpc] /\
    trace st'
    = [Heading false "Model predictive control"; EchoStart false]
      ++ element_echoes toolhead 0 tuned_mpc.
Proof.
  apply (M306_report_plain_dump sample_float_text toolhead (boot [tuned_mpc])
           eq_refl eq_refl).
Defined.
